(** * Content-Assistant: the prompt-templating and research-formatting core
      of the wizard steps [Step3Review] and [Step4Analysis].

    The TypeScript step components are embedded shallowly:
    - JavaScript strings are sequences of UTF-16 code units ([JS.jsstring]);
    - the string methods the components call ([replace], [split], [trim],
      [join]) are Rocq functions following ECMA-262;
    - the event handlers run in a small state-and-trace monad over the
      component's React state, reading the state variables of the render
      that created them. *)

From Stdlib Require Import List NArith Arith Lia Bool String Ascii.
Import ListNotations.

(** ** JavaScript strings and the methods used by the steps *)
Module JS.

(** A UTF-16 code unit. *)
Definition cu := N.

(** A JavaScript string value. *)
Definition jsstring := list cu.

(** ASCII source text as a string value. *)
Definition lit (s : string) : jsstring :=
  List.map N_of_ascii (list_ascii_of_string s).

Definition nl : jsstring := [10%N].
Definition dquote : jsstring := [34%N].
Definition dollar : cu := 36%N.

(** ToBoolean on a string: the empty string is falsy. *)
Definition truthy (s : jsstring) : bool :=
  match s with [] => false | _ :: _ => true end.

(** ToBoolean on an optional string property ([undefined] is falsy). *)
Definition truthy_opt (o : option jsstring) : bool :=
  match o with None => false | Some s => truthy s end.

(** [a || b] on strings. *)
Definition or_else (a b : jsstring) : jsstring :=
  if truthy a then a else b.

(** [p] is a prefix of [s]. *)
Fixpoint startsWith (p s : jsstring) : bool :=
  match p, s with
  | [], _ => true
  | _ :: _, [] => false
  | a :: p', b :: s' => N.eqb a b && startsWith p' s'
  end.

(** StringIndexOf(s, p, 0): the least index at which [p] occurs in [s]. *)
Fixpoint indexOf (s p : jsstring) : option nat :=
  if startsWith p s then Some 0
  else match s with
       | [] => None
       | _ :: s' => option_map S (indexOf s' p)
       end.

(** GetSubstitution for a string pattern: there are no captures and no
    named groups, so only [$$], [$&], [$`] and [$'] are expanded; [$]
    followed by anything else (digits and [<] included) stays as written. *)
Fixpoint GetSubstitution (matched before after template : jsstring)
  : jsstring :=
  match template with
  | [] => []
  | c :: rest =>
      if N.eqb c dollar then
        match rest with
        | [] => [c]
        | d :: rest' =>
            if N.eqb d 36 then
              dollar :: GetSubstitution matched before after rest'
            else if N.eqb d 38 then
              matched ++ GetSubstitution matched before after rest'
            else if N.eqb d 96 then
              before ++ GetSubstitution matched before after rest'
            else if N.eqb d 39 then
              after ++ GetSubstitution matched before after rest'
            else c :: GetSubstitution matched before after rest
        end
      else c :: GetSubstitution matched before after rest
  end.

(** [s.replace(searchValue, replaceValue)] with both arguments strings:
    only the first occurrence is replaced. *)
Definition replace (s searchValue replaceValue : jsstring) : jsstring :=
  match indexOf s searchValue with
  | None => s
  | Some pos =>
      let preceding := firstn pos s in
      let following := skipn (pos + List.length searchValue) s in
      preceding
        ++ GetSubstitution searchValue preceding following replaceValue
        ++ following
  end.

(** [parts.join(sep)] *)
Fixpoint join (sep : jsstring) (parts : list jsstring) : jsstring :=
  match parts with
  | [] => []
  | [x] => x
  | x :: rest => x ++ sep ++ join sep rest
  end.

(** [s.split(/[...]/)] for a character class [isSep]: the pieces between
    consecutive separator code units (the empty string gives one empty
    piece). *)
Fixpoint split_class (isSep : cu -> bool) (s : jsstring) : list jsstring :=
  match s with
  | [] => [[]]
  | c :: s' =>
      if isSep c then [] :: split_class isSep s'
      else match split_class isSep s' with
           | [] => [[c]]
           | piece :: pieces => (c :: piece) :: pieces
           end
  end.

(** WhiteSpace and LineTerminator code units, as stripped by [trim]. *)
Definition isWhite (c : cu) : bool :=
  (N.eqb c 9 || N.eqb c 10 || N.eqb c 11 || N.eqb c 12 || N.eqb c 13
   || N.eqb c 32 || N.eqb c 160 || N.eqb c 5760
   || (N.leb 8192 c && N.leb c 8202)
   || N.eqb c 8232 || N.eqb c 8233 || N.eqb c 8239 || N.eqb c 8287
   || N.eqb c 12288 || N.eqb c 65279)%bool.

Fixpoint trimStart (s : jsstring) : jsstring :=
  match s with
  | [] => []
  | c :: s' => if isWhite c then trimStart s' else s
  end.

(** [s.trim()] *)
Definition trim (s : jsstring) : jsstring :=
  rev (trimStart (rev (trimStart s))).

(** [s.replace(/\.\.\./g, ".")]: every three consecutive full stops,
    scanning left to right, become one. *)
Fixpoint replace_ellipsis (s : jsstring) : jsstring :=
  match s with
  | [] => []
  | a :: s1 =>
      match s1 with
      | b :: c :: s3 =>
          if (N.eqb a 46 && N.eqb b 46 && N.eqb c 46)%bool
          then 46%N :: replace_ellipsis s3
          else a :: replace_ellipsis s1
      | _ => s
      end
  end.

End JS.

Import JS.

(** ** Data model *)

(** [SearchResult] of [@/types/search], as the steps read it; [content]
    is the optional property. *)
Record SearchResult := mkSearchResult {
  title : jsstring;
  url : jsstring;
  snippet : jsstring;
  content : option jsstring;
  searchKeyword : jsstring
}.

(** The arguments of a step's [onNext] callback. *)
Inductive NextArgs :=
| ReviewNext (analysis keyword research : jsstring)
| AnalysisNext (analysis : jsstring).

(** What a handler does to the world outside the component's state. *)
Inductive Effect :=
| OnNext (args : NextArgs)
| ConsoleError (label : jsstring) (error : jsstring).

(** ** Event handlers

    A handler is a computation over the component's state store [St]
    that records its outside effects in order and completes normally or
    by throwing.  State setters write to the store; state variables are
    read from the render's snapshot, which the handler takes as an
    ordinary argument. *)
Module Handler.

Inductive completion (A : Type) :=
| Normal (a : A)
| Throw (error : jsstring).
Arguments Normal {A} a.
Arguments Throw {A} error.

Section Monad.
Variable St : Type.

Definition M (A : Type) : Type :=
  St -> list Effect -> completion A * St * list Effect.

Definition ret {A} (a : A) : M A := fun st tr => (Normal a, st, tr).

Definition bind {A B} (m : M A) (k : A -> M B) : M B :=
  fun st tr =>
    match m st tr with
    | (Normal a, st', tr') => k a st' tr'
    | (Throw e, st', tr') => (Throw e, st', tr')
    end.

Definition throw {A} (e : jsstring) : M A := fun st tr => (Throw e, st, tr).

(** A state setter. *)
Definition set (f : St -> St) : M unit := fun st tr => (Normal tt, f st, tr).

(** An outside effect, appended to the trace. *)
Definition emit (e : Effect) : M unit :=
  fun st tr => (Normal tt, st, tr ++ [e]).

(** [try { body } catch (error) { handler error } finally { final }] *)
Definition try_catch_finally (body : M unit) (handler : jsstring -> M unit)
           (final : M unit) : M unit :=
  fun st tr =>
    match body st tr with
    | (Normal _, st1, tr1) => final st1 tr1
    | (Throw e, st1, tr1) =>
        match handler e st1 tr1 with
        | (Normal _, st2, tr2) => final st2 tr2
        | (Throw e', st2, tr2) =>
            match final st2 tr2 with
            | (Normal _, st3, tr3) => (Throw e', st3, tr3)
            | r => r
            end
        end
    end.

(** Running a handler from a store, with an empty trace. *)
Definition run {A} (m : M A) (st : St) : completion A * St * list Effect :=
  m st [].
End Monad.

Arguments ret {St A} a.
Arguments bind {St A B} m k.
Arguments throw {St A} e.
Arguments set {St} f.
Arguments emit {St} e.
Arguments try_catch_finally {St} body handler final.
Arguments run {St A} m st.

Declare Scope handler_scope.
Delimit Scope handler_scope with handler.
Notation "m ;; k" := (bind m (fun _ => k))
  (at level 61, right associativity) : handler_scope.

End Handler.

Import Handler.
Local Open Scope handler_scope.

(** The review template shared by both versions of the Review step. *)
Definition REVIEW_PROMPT : jsstring :=
  lit "This is research content about articles on [keyword]: [CONTENT]"
  ++ nl ++ nl
  ++ lit "Please analyze and provide:" ++ nl
  ++ lit "1. Common article structures" ++ nl
  ++ lit "2. Main and secondary sections" ++ nl
  ++ lit "3. Key points mentioned" ++ nl
  ++ lit "4. Unique perspectives from each article" ++ nl
  ++ lit "5. Strengths/weaknesses of each article" ++ nl
  ++ lit "6. Opportunities for differentiation" ++ nl
  ++ lit "7. Content type (choose 1): Pillar Content/Supporting Content/Informational Content/Commercial Content/Engagement Content/News/Updates".

Definition CONTENT_TOKEN : jsstring := lit "[CONTENT]".
Definition KEYWORD_TOKEN : jsstring := lit "[KEYWORD]".
Definition keyword_token : jsstring := lit "[keyword]".

(** [results[0]?.searchKeyword || ""] *)
Definition firstKeyword (results : list SearchResult) : jsstring :=
  match results with
  | [] => []
  | r :: _ => or_else (searchKeyword r) []
  end.

(** ** Step3Review.tsx: the Review step with the heuristic formatter *)
Module Step3Review.

Definition DEFAULT_PROMPT : jsstring := REVIEW_PROMPT.

Record State := mkState {
  prompt : jsstring;
  contentType : jsstring;
  isProcessing : bool
}.

(** The [useState] initial values. *)
Definition initialState : State :=
  {| prompt := DEFAULT_PROMPT; contentType := lit "pillar";
     isProcessing := false |}.

Definition setPrompt (v : jsstring) (st : State) : State :=
  {| prompt := v; contentType := contentType st;
     isProcessing := isProcessing st |}.

Definition setContentType (v : jsstring) (st : State) : State :=
  {| prompt := prompt st; contentType := v;
     isProcessing := isProcessing st |}.

Definition setIsProcessing (v : bool) (st : State) : State :=
  {| prompt := prompt st; contentType := contentType st;
     isProcessing := v |}.

(** The class [-–—:] of title separators. *)
Definition isTitleSep (c : cu) : bool :=
  (N.eqb c 45 || N.eqb c 8211 || N.eqb c 8212 || N.eqb c 58)%bool.

(** The class [.!?] of sentence ends. *)
Definition isSentenceEnd (c : cu) : bool :=
  (N.eqb c 46 || N.eqb c 33 || N.eqb c 63)%bool.

Definition titlePoints (r : SearchResult) : list jsstring :=
  filter (fun p => 10 <? List.length p)
         (List.map trim (split_class isTitleSep (title r))).

Definition cleanSnippet (r : SearchResult) : jsstring :=
  join (lit ". ")
       (filter (fun s => 0 <? List.length s)
               (List.map trim
                  (split_class isSentenceEnd (replace_ellipsis (snippet r))))).

(** The template literal of the [map] callback. *)
Definition block (r : SearchResult) : jsstring :=
  lit "# " ++ title r ++ nl ++ nl
  ++ lit "Source: " ++ url r ++ nl ++ nl
  ++ lit "Key Points:" ++ nl
  ++ join nl (List.map (fun p => lit "- " ++ p) (titlePoints r)) ++ nl ++ nl
  ++ lit "Summary:" ++ nl
  ++ cleanSnippet r ++ nl ++ nl
  ++ lit "---" ++ nl.

(** [results.map(...).join("\n")] *)
Definition format (results : list SearchResult) : jsstring :=
  join nl (List.map block results).

(** [prompt.replace("[CONTENT]", content)] *)
Definition researchPrompt (prompt content : jsstring) : jsstring :=
  replace prompt CONTENT_TOKEN content.

(** [handleProcess], created by a render whose state is [snap] and whose
    [results] prop is [results]. *)
Definition handleProcess (results : list SearchResult) (snap : State)
  : M State unit :=
  if Nat.eqb (List.length results) 0 then ret tt
  else
    set (setIsProcessing true) ;;
    try_catch_finally
      (let content := format results in
       let keyword := firstKeyword results in
       emit (OnNext (ReviewNext (researchPrompt (prompt snap) content)
                                keyword content)))
      (fun error => emit (ConsoleError (lit "Error processing content:") error))
      (set (setIsProcessing false)).

(** The "Next Step" button is disabled while processing or without
    results. *)
Definition nextDisabled (results : list SearchResult) (st : State) : bool :=
  isProcessing st || Nat.eqb (List.length results) 0.

End Step3Review.

(** ** The later version of the Review step (second component of
       Step4Analysis.tsx), which formats through [htmlToMarkdown] *)
Module Step3ReviewMd.

Section WithConverter.
(** [htmlToMarkdown] of [@/lib/search]: [Some f] when the import is a
    function, [None] otherwise (the [typeof] test). *)
Variable htmlToMarkdown : option (jsstring -> jsstring).

Definition markdownContent (r : SearchResult) : jsstring :=
  match content r with
  | Some c =>
      if truthy c then
        match htmlToMarkdown with
        | Some convert => convert c
        | None => c
        end
      else or_else (snippet r) (lit "No content available")
  | None => or_else (snippet r) (lit "No content available")
  end.

Definition block (r : SearchResult) : jsstring :=
  lit "# " ++ title r ++ nl ++ nl
  ++ lit "Source: " ++ url r ++ nl ++ nl
  ++ lit "## Summary" ++ nl
  ++ or_else (snippet r) (lit "No summary available") ++ nl ++ nl
  ++ lit "## Full Content" ++ nl
  ++ markdownContent r ++ nl ++ nl
  ++ lit "---" ++ nl.

Definition format (results : list SearchResult) : jsstring :=
  join nl (List.map block results).
End WithConverter.

Definition DEFAULT_PROMPT : jsstring := REVIEW_PROMPT.

Record State := mkState {
  prompt : jsstring;
  contentType : jsstring;
  isProcessing : bool;
  processedContent : jsstring;
  showResults : bool;
  finalKeyword : jsstring;
  finalPrompt : jsstring
}.

Definition initialState : State :=
  {| prompt := []; contentType := lit "pillar"; isProcessing := false;
     processedContent := []; showResults := false; finalKeyword := [];
     finalPrompt := [] |}.

Definition setPrompt (v : jsstring) (st : State) : State :=
  {| prompt := v; contentType := contentType st;
     isProcessing := isProcessing st;
     processedContent := processedContent st; showResults := showResults st;
     finalKeyword := finalKeyword st; finalPrompt := finalPrompt st |}.

Definition setIsProcessing (v : bool) (st : State) : State :=
  {| prompt := prompt st; contentType := contentType st; isProcessing := v;
     processedContent := processedContent st; showResults := showResults st;
     finalKeyword := finalKeyword st; finalPrompt := finalPrompt st |}.

Definition setProcessedContent (v : jsstring) (st : State) : State :=
  {| prompt := prompt st; contentType := contentType st;
     isProcessing := isProcessing st;
     processedContent := v; showResults := showResults st;
     finalKeyword := finalKeyword st; finalPrompt := finalPrompt st |}.

Definition setFinalKeyword (v : jsstring) (st : State) : State :=
  {| prompt := prompt st; contentType := contentType st;
     isProcessing := isProcessing st;
     processedContent := processedContent st; showResults := showResults st;
     finalKeyword := v; finalPrompt := finalPrompt st |}.

Definition setFinalPrompt (v : jsstring) (st : State) : State :=
  {| prompt := prompt st; contentType := contentType st;
     isProcessing := isProcessing st;
     processedContent := processedContent st; showResults := showResults st;
     finalKeyword := finalKeyword st; finalPrompt := v |}.

Definition setShowResults (v : bool) (st : State) : State :=
  {| prompt := prompt st; contentType := contentType st;
     isProcessing := isProcessing st;
     processedContent := processedContent st; showResults := v;
     finalKeyword := finalKeyword st; finalPrompt := finalPrompt st |}.

(** The effect on [keyword]: the prompt is the template with the first
    [[keyword]] filled in. *)
Definition keywordEffect (keyword : jsstring) (st : State) : State :=
  if truthy keyword
  then setPrompt (replace DEFAULT_PROMPT keyword_token keyword) st
  else setPrompt DEFAULT_PROMPT st.

Definition handleProcess (htmlToMarkdown : option (jsstring -> jsstring))
           (results : list SearchResult) (snap : State) : M State unit :=
  if Nat.eqb (List.length results) 0 then ret tt
  else
    set (setIsProcessing true) ;;
    try_catch_finally
      (let content := format htmlToMarkdown results in
       let generatedPrompt := replace (prompt snap) CONTENT_TOKEN content in
       set (setProcessedContent content) ;;
       set (setFinalKeyword (firstKeyword results)) ;;
       set (setFinalPrompt generatedPrompt) ;;
       set (setShowResults true))
      (fun error => emit (ConsoleError (lit "Error processing content:") error))
      (set (setIsProcessing false)).

(** [handleContinue] *)
Definition handleContinue (snap : State) : M State unit :=
  emit (OnNext (ReviewNext (finalPrompt snap) (finalKeyword snap)
                           (processedContent snap))).

End Step3ReviewMd.

(** ** Step4Analysis.tsx: the Analysis step *)
Module Step4Analysis.

Definition DEFAULT_PROMPT : jsstring :=
  lit "Based on the following research content about " ++ dquote
  ++ lit "[KEYWORD]" ++ dquote
  ++ lit ", analyze the characteristics of the content writers. Detail the writing style to guide others in writing similarly on this topic."
  ++ nl ++ nl
  ++ lit "Include analysis of:" ++ nl
  ++ lit "1. Tone and voice (formal, conversational, technical)" ++ nl
  ++ lit "2. Sentence structure and length" ++ nl
  ++ lit "3. Vocabulary level and specialized terminology usage" ++ nl
  ++ lit "4. Paragraph organization and flow" ++ nl
  ++ lit "5. Use of questions, commands, or other engagement techniques" ++ nl
  ++ lit "6. Content formatting patterns (lists, headers, quotes)" ++ nl
  ++ lit "7. Overall readability and target audience level" ++ nl ++ nl
  ++ lit "Research content:" ++ nl
  ++ lit "[CONTENT]".

(** [RECOMMENDED_MODELS[0].name] *)
Definition firstModel : jsstring := lit "gemini-1.5-pro".

(** The stand-in result written by [generateStyleAnalysis]. *)
Definition PLACEHOLDER_RESULT : jsstring :=
  lit "The AI analysis will appear here after generation is complete.".

(** [DEFAULT_PROMPT.replace("[KEYWORD]", keyword)
                   .replace("[CONTENT]", researchContent)] *)
Definition initializedPrompt (keyword researchContent : jsstring) : jsstring :=
  replace (replace DEFAULT_PROMPT KEYWORD_TOKEN keyword)
          CONTENT_TOKEN researchContent.

Record State := mkState {
  selectedModel : jsstring;
  prompt : jsstring;
  contentPreviewExpanded : bool;
  analysisResult : jsstring;
  isProcessing : bool;
  isGenerating : bool;
  copySuccess : bool;
  showResults : bool
}.

(** The [useState] initial values at mount. *)
Definition initialState (keyword researchContent : jsstring) : State :=
  {| selectedModel := firstModel;
     prompt := initializedPrompt keyword researchContent;
     contentPreviewExpanded := false;
     analysisResult := [];
     isProcessing := false;
     isGenerating := false;
     copySuccess := false;
     showResults := false |}.

Definition setPrompt (v : jsstring) (st : State) : State :=
  {| selectedModel := selectedModel st; prompt := v;
     contentPreviewExpanded := contentPreviewExpanded st;
     analysisResult := analysisResult st; isProcessing := isProcessing st;
     isGenerating := isGenerating st; copySuccess := copySuccess st;
     showResults := showResults st |}.

Definition setAnalysisResult (v : jsstring) (st : State) : State :=
  {| selectedModel := selectedModel st; prompt := prompt st;
     contentPreviewExpanded := contentPreviewExpanded st;
     analysisResult := v; isProcessing := isProcessing st;
     isGenerating := isGenerating st; copySuccess := copySuccess st;
     showResults := showResults st |}.

Definition setIsProcessing (v : bool) (st : State) : State :=
  {| selectedModel := selectedModel st; prompt := prompt st;
     contentPreviewExpanded := contentPreviewExpanded st;
     analysisResult := analysisResult st; isProcessing := v;
     isGenerating := isGenerating st; copySuccess := copySuccess st;
     showResults := showResults st |}.

Definition setIsGenerating (v : bool) (st : State) : State :=
  {| selectedModel := selectedModel st; prompt := prompt st;
     contentPreviewExpanded := contentPreviewExpanded st;
     analysisResult := analysisResult st; isProcessing := isProcessing st;
     isGenerating := v; copySuccess := copySuccess st;
     showResults := showResults st |}.

Definition setShowResults (v : bool) (st : State) : State :=
  {| selectedModel := selectedModel st; prompt := prompt st;
     contentPreviewExpanded := contentPreviewExpanded st;
     analysisResult := analysisResult st; isProcessing := isProcessing st;
     isGenerating := isGenerating st; copySuccess := copySuccess st;
     showResults := v |}.

(** How the awaited generation call settles.  The shipped stub is a timer
    that always resolves; the call it stands for can reject. *)
Inductive Settled :=
| Resolved
| Rejected (error : jsstring).

(** [await call] *)
Definition await (call : Settled) : M State unit :=
  match call with
  | Resolved => ret tt
  | Rejected e => throw e
  end.

(** [generateStyleAnalysis] *)
Definition generateStyleAnalysis (call : Settled) : M State unit :=
  set (setIsGenerating true) ;;
  try_catch_finally
    (await call ;;
     set (setAnalysisResult PLACEHOLDER_RESULT) ;;
     set (setShowResults true))
    (fun error => emit (ConsoleError (lit "Error generating analysis:") error))
    (set (setIsGenerating false)).

(** [handleProcess], created by a render whose state is [snap]: the
    [analysisResult] and [isGenerating] it reads are that render's. *)
Definition handleProcess (call : Settled) (snap : State) : M State unit :=
  set (setIsProcessing true) ;;
  try_catch_finally
    ((if negb (truthy (analysisResult snap)) && negb (isGenerating snap)
      then generateStyleAnalysis call
      else ret tt) ;;
     emit (OnNext (AnalysisNext (analysisResult snap))))
    (fun error => emit (ConsoleError (lit "Error processing content:") error))
    (set (setIsProcessing false)).

(** The "Continue to Next Step" button. *)
Definition continueDisabled (st : State) : bool :=
  isProcessing st || isGenerating st.

End Step4Analysis.

(** ** The wizard controller *)
Module Wizard.

(** Modelled from the spec: the controller component (ContentWizard, which
    the steps import their [ModelConfig] type from) is not among the
    sources.  Its states are [Config -> Search -> Review -> Analysis ->
    Done], linear, with a back transition to the predecessor. *)
Inductive Step := Config | Search | Review | Analysis | Done.

Definition previous (s : Step) : Step :=
  match s with
  | Config => Config
  | Search => Config
  | Review => Search
  | Analysis => Review
  | Done => Analysis
  end.

(** Modelled from the spec: the error kinds of the step pipeline. *)
Inductive Condition := MissingPrerequisite | GenerationFailed | ExportFailed.

(** Modelled from the spec: the accumulated state threaded forward; the
    model configuration is an opaque identifier. *)
Record WizardContext := mkContext {
  modelConfig : jsstring;
  keyword : jsstring;
  searchResults : list SearchResult;
  researchText : jsstring;
  analysisPrompt : jsstring;
  analysisResult : jsstring
}.

(** Modelled from the spec: the controller owns the context, the
    active-state pointer and one StepState per step; the Review and
    Analysis step states are the React states of the two components, the
    Analysis one existing from the first time the step is entered. *)
Record Wizard := mkWizard {
  active : Step;
  context : WizardContext;
  reviewStep : Step3Review.State;
  analysisStep : option Step4Analysis.State
}.

(** Modelled from the spec: what a step hands to [advance] (the
    controller is missing, so is the type of its outputs). *)
Inductive Output :=
| ConfigOutput (model : jsstring)
| SearchOutput (results : list SearchResult)
| StepNext (args : NextArgs).

Definition withActive (s : Step) (w : Wizard) : Wizard :=
  {| active := s; context := context w; reviewStep := reviewStep w;
     analysisStep := analysisStep w |}.

Definition withContext (c : WizardContext) (w : Wizard) : Wizard :=
  {| active := active w; context := c; reviewStep := reviewStep w;
     analysisStep := analysisStep w |}.

Definition withReview (st : Step3Review.State) (w : Wizard) : Wizard :=
  {| active := active w; context := context w; reviewStep := st;
     analysisStep := analysisStep w |}.

Definition withAnalysis (st : option Step4Analysis.State) (w : Wizard)
  : Wizard :=
  {| active := active w; context := context w; reviewStep := reviewStep w;
     analysisStep := st |}.

(** Modelled from the spec: [advance(step, output)] checks that what the
    next step requires is present, and only then merges the output and
    moves the pointer forward; otherwise it reports [MissingPrerequisite]
    and leaves the wizard as it was. *)
Definition advance (w : Wizard) (out : Output) : Wizard * option Condition :=
  let c := context w in
  match active w, out with
  | Config, ConfigOutput m =>
      (withActive Search
         (withContext
            (mkContext m (keyword c) (searchResults c) (researchText c)
                       (analysisPrompt c) (analysisResult c)) w),
       None)
  | Search, SearchOutput rs =>
      match rs with
      | [] => (w, Some MissingPrerequisite)
      | _ :: _ =>
          (withActive Review
             (withContext
                (mkContext (modelConfig c) (keyword c) rs (researchText c)
                           (analysisPrompt c) (analysisResult c)) w),
           None)
      end
  | Review, StepNext (ReviewNext a k r) =>
      match searchResults c with
      | [] => (w, Some MissingPrerequisite)
      | _ :: _ =>
          (withActive Analysis
             (withAnalysis
                (match analysisStep w with
                 | Some st => Some st
                 | None => Some (Step4Analysis.initialState k r)
                 end)
                (withContext
                   (mkContext (modelConfig c) k (searchResults c) r a
                              (analysisResult c)) w)),
           None)
      end
  | Analysis, StepNext (AnalysisNext a) =>
      (withActive Done
         (withContext
            (mkContext (modelConfig c) (keyword c) (searchResults c)
                       (researchText c) (analysisPrompt c) a) w),
       None)
  | _, _ => (w, Some MissingPrerequisite)
  end.

(** Modelled from the spec: [back()] moves the pointer to the previous
    state and touches nothing else. *)
Definition back (w : Wizard) : Wizard := withActive (previous (active w)) w.

(** Modelled from the spec: the controller's [onNext] callbacks, which
    are missing; every [OnNext] a handler emitted is an [advance], console
    output stays local. *)
Fixpoint deliver (w : Wizard) (effects : list Effect)
  : Wizard * list Condition :=
  match effects with
  | [] => (w, [])
  | OnNext args :: rest =>
      match advance w (StepNext args) with
      | (w', None) => deliver w' rest
      | (w', Some cond) =>
          let (w'', conds) := deliver w' rest in (w'', cond :: conds)
      end
  | ConsoleError _ _ :: rest => deliver w rest
  end.


(** Modelled from the spec: the controller passes its search results as
    the [results] prop (the rendering is missing); pressing "Next Step"
    runs the component's [handleProcess]. *)
Definition pressReviewNext (w : Wizard) : Wizard * list Condition :=
  match active w with
  | Review =>
      match run (Step3Review.handleProcess (searchResults (context w))
                                           (reviewStep w)) (reviewStep w) with
      | (_, st, effects) => deliver (withReview st w) effects
      end
  | _ => (w, [])
  end.

(** Modelled from the spec: pressing "Continue to Next Step" on the
    Analysis step the controller renders (the rendering is missing), the
    generation call settling as [call]. *)
Definition pressAnalysisContinue (call : Step4Analysis.Settled) (w : Wizard)
  : Wizard * list Condition :=
  match active w, analysisStep w with
  | Analysis, Some snap =>
      match run (Step4Analysis.handleProcess call snap) snap with
      | (_, st, effects) => deliver (withAnalysis (Some st) w) effects
      end
  | _, _ => (w, [])
  end.


End Wizard.

(** ** Vocabulary of the properties *)

(** [p] occurs in [s] at index [i]. *)
Definition occurs_at (p : jsstring) (i : nat) (s : jsstring) : bool :=
  (i <=? List.length s) && startsWith p (skipn i s).

(** [p] is a substring of [s]. *)
Definition contains (p s : jsstring) : Prop :=
  exists before after, s = before ++ p ++ after.

(** The number of non-overlapping occurrences of a non-empty [p] in [s],
    scanning left to right; [skip] code units of a counted occurrence are
    still to be passed over. *)
Fixpoint occurrences_from (skip : nat) (p s : jsstring) : nat :=
  match s with
  | [] => 0
  | _ :: s' =>
      match skip with
      | S k => occurrences_from k p s'
      | 0 =>
          if startsWith p s
          then S (occurrences_from (List.length p - 1) p s')
          else occurrences_from 0 p s'
      end
  end.

Definition occurrences (p s : jsstring) : nat := occurrences_from 0 p s.

(** No [$] in a replacement value: nothing for GetSubstitution to expand. *)
Definition dollar_free (v : jsstring) : bool :=
  forallb (fun c => negb (N.eqb c dollar)) v.

(** The code unit [c] does not occur in [s]. *)
Definition lacks (c : cu) (s : jsstring) : bool :=
  forallb (fun x => negb (N.eqb x c)) s.

(** No occurrence of [p] in [a ++ t] starts within [a]. *)
Definition starts_none_within (p a t : jsstring) : Prop :=
  forall m, m < List.length a -> startsWith p (skipn m (a ++ t)) = false.

(** The Analysis template around its two tokens. *)
Definition promptHead : jsstring :=
  lit "Based on the following research content about " ++ dquote.

Definition promptBody : jsstring :=
  dquote
  ++ lit ", analyze the characteristics of the content writers. Detail the writing style to guide others in writing similarly on this topic."
  ++ nl ++ nl
  ++ lit "Include analysis of:" ++ nl
  ++ lit "1. Tone and voice (formal, conversational, technical)" ++ nl
  ++ lit "2. Sentence structure and length" ++ nl
  ++ lit "3. Vocabulary level and specialized terminology usage" ++ nl
  ++ lit "4. Paragraph organization and flow" ++ nl
  ++ lit "5. Use of questions, commands, or other engagement techniques" ++ nl
  ++ lit "6. Content formatting patterns (lists, headers, quotes)" ++ nl
  ++ lit "7. Overall readability and target audience level" ++ nl ++ nl
  ++ lit "Research content:" ++ nl.

(** The research texts and keywords a handler passed to [onNext]. *)
Fixpoint researchSent (effects : list Effect) : list (jsstring * jsstring) :=
  match effects with
  | [] => []
  | OnNext (ReviewNext _ keyword research) :: rest =>
      (keyword, research) :: researchSent rest
  | _ :: rest => researchSent rest
  end.

(** The same search result with another [content] property. *)
Definition withContent (c : option jsstring) (r : SearchResult)
  : SearchResult :=
  mkSearchResult (title r) (url r) (snippet r) c (searchKeyword r).

(** A formatter emits one block per result, in the order of the results,
    consecutive blocks separated by a newline. *)
Definition emits_in_order (format : list SearchResult -> jsstring)
           (block : SearchResult -> jsstring) : Prop :=
  format [] = []
  /\ (forall r, format [r] = block r)
  /\ (forall r r' rest,
         format (r :: r' :: rest) = block r ++ nl ++ format (r' :: rest))
  /\ (forall before a between b after,
         exists p q r,
           format (before ++ a :: between ++ b :: after)
           = p ++ block a ++ q ++ block b ++ r).

(** Every block closes with the horizontal rule and a newline. *)
Definition ends_with_rule (block : SearchResult -> jsstring) : Prop :=
  forall r, exists body, block r = body ++ lit "---" ++ nl.

(** For three results the titles occur at strictly increasing indices. *)
Definition titles_increasing (format : list SearchResult -> jsstring)
  : Prop :=
  forall A B C,
  exists i j k,
    i < j /\ j < k
    /\ occurs_at (title A) i (format [A; B; C]) = true
    /\ occurs_at (title B) j (format [A; B; C]) = true
    /\ occurs_at (title C) k (format [A; B; C]) = true.

(** The steps resolve a template by chaining [replace] calls, one per
    binding, in the order written; [resolve] is that chain for a list of
    (placeholder, value) bindings. *)
Definition resolve (template : jsstring)
           (bindings : list (jsstring * jsstring)) : jsstring :=
  fold_left (fun t b => replace t (fst b) (snd b)) bindings template.

(** ** Step4Analysis.tsx: what the Analysis step renders and exports *)
Module Step4AnalysisView.

(** The elements [renderFormattedContent] builds; [key] is the line's
    index. *)
Inductive Element :=
| H1 (key : nat) (text : jsstring)
| H2 (key : nat) (text : jsstring)
| Bullet (key : nat) (text : jsstring)
| Numbered (key : nat) (text : jsstring)
| Br (key : nat)
| Paragraph (key : nat) (text : jsstring).

(** The class [\d]. *)
Definition isDigit (c : cu) : bool := (N.leb 48 c && N.leb c 57)%bool.

Fixpoint skipDigits (s : jsstring) : jsstring :=
  match s with
  | [] => []
  | c :: s' => if isDigit c then skipDigits s' else s
  end.

(** [/^\d+\.\s/.test(line)]: digits, a full stop, a white space. *)
Definition isNumbered (line : jsstring) : bool :=
  match line with
  | [] => false
  | c :: _ =>
      isDigit c
      && match skipDigits line with
         | d :: w :: _ => N.eqb d 46 && isWhite w
         | _ => false
         end
  end.

(** [line.substring(line.indexOf(' ') + 1)]: [indexOf] is -1 without a
    space, and the substring then is the whole line. *)
Definition afterFirstSpace (line : jsstring) : jsstring :=
  match indexOf line [32%N] with
  | Some i => skipn (i + 1) line
  | None => line
  end.

(** The callback of [content.split("\n").map]. *)
Definition renderLine (i : nat) (line : jsstring) : Element :=
  if startsWith (lit "# ") line then H1 i (skipn 2 line)
  else if startsWith (lit "## ") line then H2 i (skipn 3 line)
  else if startsWith (lit "* ") line then Bullet i (skipn 2 line)
  else if isNumbered line then Numbered i (afterFirstSpace line)
  else match line with
       | [] => Br i
       | _ :: _ => Paragraph i line
       end.

(** [array.map((x, i) => f i x)] *)
Definition mapi {A B : Type} (f : nat -> A -> B) (l : list A) : list B :=
  List.map (fun ix => f (fst ix) (snd ix))
           (combine (seq 0 (List.length l)) l).

(** [renderFormattedContent]; [None] is the [null] returned for empty
    content. *)
Definition renderFormattedContent (content : jsstring)
  : option (list Element) :=
  if truthy content
  then Some (mapi renderLine (split_class (N.eqb 10) content))
  else None.

(** [keyword.replace(/\s+/g, "-")]: every maximal run of white space
    becomes one hyphen; [inRun] says the code unit before was white. *)
Fixpoint replace_whitespace_runs (inRun : bool) (s : jsstring) : jsstring :=
  match s with
  | [] => []
  | c :: s' =>
      if isWhite c
      then if inRun then replace_whitespace_runs true s'
           else 45%N :: replace_whitespace_runs true s'
      else c :: replace_whitespace_runs false s'
  end.

(** The file the browser is made to save: the anchor's [download] name
    and the blob it points to. *)
Record Download := mkDownload {
  filename : jsstring;
  blobParts : list jsstring;
  mimeType : jsstring
}.

(** [handleDownload], created by a render whose state is [snap] and whose
    [keyword] prop is [keyword]; [None] when it returns at once. *)
Definition handleDownload (keyword : jsstring) (snap : Step4Analysis.State)
  : option Download :=
  if truthy (Step4Analysis.analysisResult snap)
  then Some (mkDownload
               (replace_whitespace_runs false keyword
                  ++ lit "-style-analysis.md")
               [Step4Analysis.analysisResult snap]
               (lit "text/markdown"))
  else None.

(** The research preview card: [researchContent.substring(0, 500) + "..."]
    or the fallback text. *)
Definition researchPreview (researchContent : jsstring) : jsstring :=
  if truthy researchContent
  then firstn 500 researchContent ++ lit "..."
  else lit "No research content available.".

End Step4AnalysisView.

(** ** Vocabulary of the further properties *)

(** The React key of a rendered element. *)
Definition elementKey (e : Step4AnalysisView.Element) : nat :=
  match e with
  | Step4AnalysisView.H1 k _ | Step4AnalysisView.H2 k _
  | Step4AnalysisView.Bullet k _ | Step4AnalysisView.Numbered k _
  | Step4AnalysisView.Br k | Step4AnalysisView.Paragraph k _ => k
  end.

(** The Review template around its two tokens. *)
Definition reviewHead : jsstring :=
  lit "This is research content about articles on ".

Definition reviewTail : jsstring :=
  nl ++ nl
  ++ lit "Please analyze and provide:" ++ nl
  ++ lit "1. Common article structures" ++ nl
  ++ lit "2. Main and secondary sections" ++ nl
  ++ lit "3. Key points mentioned" ++ nl
  ++ lit "4. Unique perspectives from each article" ++ nl
  ++ lit "5. Strengths/weaknesses of each article" ++ nl
  ++ lit "6. Opportunities for differentiation" ++ nl
  ++ lit "7. Content type (choose 1): Pillar Content/Supporting Content/Informational Content/Commercial Content/Engagement Content/News/Updates".

(** No white space in [s]. *)
Definition white_free (s : jsstring) : bool :=
  forallb (fun c => negb (isWhite c)) s.

(** [s] is empty or starts with a code unit that [trim] keeps. *)
Definition starts_clean (s : jsstring) : bool :=
  match s with
  | [] => true
  | c :: _ => negb (isWhite c)
  end.

(** The [onNext] calls among a handler's effects. *)
Fixpoint nextCalls (effects : list Effect) : list NextArgs :=
  match effects with
  | [] => []
  | OnNext args :: rest => args :: nextCalls rest
  | ConsoleError _ _ :: rest => nextCalls rest
  end.

(** The trimmed pieces that are not empty, as [cleanSnippet] keeps them. *)
Definition sentences (pieces : list jsstring) : list jsstring :=
  filter (fun s => 0 <? List.length s) (List.map trim pieces).

(** * Properties *)

(** ** Strings: prefixes, first occurrences and [replace] *)
Section StringFacts.

Lemma startsWith_app (p s : jsstring) : startsWith p (p ++ s) = true.
Proof.
  induction p as [|a p IH]; simpl; [reflexivity|].
  now rewrite N.eqb_refl.
Qed.

Lemma startsWith_split (p s : jsstring) :
  startsWith p s = true -> exists t, s = p ++ t.
Proof.
  revert s; induction p as [|a p IH]; intros s H.
  - now exists s.
  - destruct s as [|b s]; [discriminate|].
    simpl in H. apply andb_prop in H as [Hab Hps].
    apply N.eqb_eq in Hab; subst b.
    destruct (IH _ Hps) as [t ->]. now exists t.
Qed.

Lemma startsWith_nil_r (p : jsstring) :
  startsWith p [] = true -> p = [].
Proof. destruct p; [reflexivity|discriminate]. Qed.

(** A prefix test that succeeds across an append either succeeds within
    the left part or runs over into the right part. *)
Lemma startsWith_app_inv (p k t : jsstring) :
  startsWith p (k ++ t) = true ->
  startsWith p k = true
  \/ exists p1 p2, p = p1 ++ p2 /\ p2 <> [] /\ k = p1
                   /\ startsWith p2 t = true.
Proof.
  revert k; induction p as [|a p IH]; intros k H.
  - now left.
  - destruct k as [|b k].
    + right. exists [], (a :: p). repeat split; try easy.
    + simpl in H. apply andb_prop in H as [Hab Hrest].
      destruct (IH _ Hrest) as [Hin | (p1 & p2 & -> & Hne & -> & Hp2)].
      * left. simpl. now rewrite Hab, Hin.
      * right. apply N.eqb_eq in Hab; subst b.
        exists (a :: p1), p2. repeat split; easy.
Qed.

Lemma indexOf_lt (s p : jsstring) (n : nat) :
  indexOf s p = Some n -> n <= List.length s.
Proof.
  revert n; induction s as [|c s IH]; intros n H; simpl in H.
  - destruct (startsWith p []); inversion H; lia.
  - destruct (startsWith p (c :: s)).
    + inversion H; lia.
    + destruct (indexOf s p) as [m|] eqn:E; [|discriminate].
      inversion H; subst. specialize (IH m eq_refl). simpl; lia.
Qed.

(** [indexOf] finds the leftmost occurrence. *)
Lemma indexOf_Some (s p : jsstring) (n : nat) :
  indexOf s p = Some n ->
  s = firstn n s ++ p ++ skipn (n + List.length p) s
  /\ forall m, m < n -> startsWith p (skipn m s) = false.
Proof.
  revert n; induction s as [|c s IH]; intros n H; simpl in H.
  - destruct (startsWith p []) eqn:E; [|discriminate].
    inversion H; subst. apply startsWith_nil_r in E; subst p.
    split; [reflexivity|intros; lia].
  - destruct (startsWith p (c :: s)) eqn:E.
    + inversion H; subst. split; [|intros; lia].
      destruct (startsWith_split _ _ E) as [t Ht].
      rewrite Ht. cbn [firstn app Nat.add]. f_equal.
      now rewrite skipn_app, Nat.sub_diag, skipn_all, skipn_0.
    + destruct (indexOf s p) as [k|] eqn:Ek; [|discriminate].
      inversion H; subst n. destruct (IH k eq_refl) as [Heq Hmin].
      split.
      * simpl. f_equal. exact Heq.
      * intros [|m] Hm; [exact E|]. simpl. apply Hmin. lia.
Qed.

Lemma indexOf_None (s p : jsstring) :
  indexOf s p = None ->
  forall m, m <= List.length s -> startsWith p (skipn m s) = false.
Proof.
  induction s as [|c s IH]; intros H m Hm; simpl in H.
  - destruct (startsWith p []) eqn:E; [discriminate|].
    destruct m; [exact E|simpl in Hm; lia].
  - destruct (startsWith p (c :: s)) eqn:E; [discriminate|].
    destruct (indexOf s p) eqn:Ek; [discriminate|].
    destruct m as [|m]; [exact E|]. simpl. apply IH; [reflexivity|].
    simpl in Hm; lia.
Qed.

(** The converse: an occurrence with none starting before it is the one
    [indexOf] returns. *)
Lemma indexOf_first (pre p post : jsstring) :
  (forall m, m < List.length pre ->
             startsWith p (skipn m (pre ++ p ++ post)) = false) ->
  indexOf (pre ++ p ++ post) p = Some (List.length pre).
Proof.
  induction pre as [|c pre IH]; intros Hmin.
  - simpl app. destruct (p ++ post) eqn:E; simpl.
    + destruct p; [reflexivity|discriminate].
    + rewrite <- E, startsWith_app. reflexivity.
  - change ((c :: pre) ++ p ++ post) with (c :: (pre ++ p ++ post)) in *.
    pose proof (Hmin 0 ltac:(simpl; lia)) as H0. cbn [skipn] in H0.
    cbn [indexOf]. rewrite H0.
    rewrite IH; [reflexivity|].
    intros m Hm. apply (Hmin (S m)). simpl; lia.
Qed.

Lemma GetSubstitution_dollar_free (matched before after v : jsstring) :
  dollar_free v = true -> GetSubstitution matched before after v = v.
Proof.
  unfold dollar_free.
  induction v as [|c v IH]; intros Hfree; [reflexivity|].
  simpl in Hfree. apply andb_prop in Hfree as [Hc Hv].
  simpl. destruct (N.eqb c dollar); [discriminate|].
  now rewrite IH.
Qed.

Lemma replace_absent (s p v : jsstring) :
  indexOf s p = None -> replace s p v = s.
Proof. intros H. unfold replace. now rewrite H. Qed.

(** [replace] rewrites the leftmost occurrence and nothing else. *)
Lemma replace_leftmost (pre p post v : jsstring) :
  (forall m, m < List.length pre ->
             startsWith p (skipn m (pre ++ p ++ post)) = false) ->
  replace (pre ++ p ++ post) p v
  = pre ++ GetSubstitution p pre post v ++ post.
Proof.
  intros Hmin. unfold replace. rewrite (indexOf_first _ _ _ Hmin).
  rewrite firstn_app, Nat.sub_diag, firstn_all. simpl firstn.
  rewrite app_nil_r.
  rewrite skipn_app.
  rewrite (skipn_all2 pre) by lia.
  replace (List.length pre + List.length p - List.length pre)
    with (List.length p) by lia.
  rewrite skipn_app, Nat.sub_diag, skipn_all, skipn_0.
  reflexivity.
Qed.

(** Passing over a counted occurrence. *)
Lemma occurrences_from_skip (p q s : jsstring) :
  occurrences_from (List.length q) p (q ++ s) = occurrences_from 0 p s.
Proof.
  induction q as [|c q IH]; simpl.
  - destruct s; reflexivity.
  - exact IH.
Qed.

Lemma occurrences_leftmost (pre p post : jsstring) :
  p <> [] ->
  (forall m, m < List.length pre ->
             startsWith p (skipn m (pre ++ p ++ post)) = false) ->
  occurrences p (pre ++ p ++ post) = S (occurrences p post).
Proof.
  intros Hp. unfold occurrences.
  induction pre as [|c pre IH]; intros Hmin.
  - destruct p as [|a q]; [contradiction|].
    simpl app. cbn [occurrences_from].
    change (a :: q ++ post) with ((a :: q) ++ post).
    rewrite startsWith_app. f_equal.
    cbn [List.length]. rewrite Nat.sub_succ, Nat.sub_0_r.
    apply occurrences_from_skip.
  - change ((c :: pre) ++ p ++ post) with (c :: (pre ++ p ++ post)) in *.
    pose proof (Hmin 0 ltac:(simpl; lia)) as H0. cbn [skipn] in H0.
    cbn [occurrences_from]. rewrite H0.
    apply IH. intros m Hm. apply (Hmin (S m)). simpl; lia.
Qed.

End StringFacts.

(** ** TemplateEngine: what a chain of [replace] calls resolves *)

Lemma researchPrompt_resolve (prompt content : jsstring) :
  Step3Review.researchPrompt prompt content
  = resolve prompt [(CONTENT_TOKEN, content)].
Proof. reflexivity. Qed.

Lemma initializedPrompt_resolve (keyword researchContent : jsstring) :
  Step4Analysis.initializedPrompt keyword researchContent
  = resolve Step4Analysis.DEFAULT_PROMPT
            [(KEYWORD_TOKEN, keyword); (CONTENT_TOKEN, researchContent)].
Proof. reflexivity. Qed.

(** C1, as stated, fails: a command that names [[CONTENT]] twice keeps the
    second token after the Review step resolved it, although the research
    text contains no token. *)
Lemma replace_all_occurrences_counterexample :
  let template := lit "[CONTENT] and [CONTENT]" in
  let value := lit "x" in
  occurrences CONTENT_TOKEN template = 2
  /\ occurrences CONTENT_TOKEN value = 0
  /\ Step3Review.researchPrompt template value = lit "x and [CONTENT]"
  /\ occurrences CONTENT_TOKEN (Step3Review.researchPrompt template value)
     <> 0.
Proof. vm_compute. repeat split; discriminate. Qed.

(** C1, amended: resolving a (placeholder, value) binding rewrites the
    leftmost occurrence of the placeholder only.  When the template reads
    [pre ++ placeholder ++ post] with that occurrence the leftmost one and
    the value has no [$], the output is [pre ++ value ++ post]: of the
    template's occurrences, all but the first are those of [post], and
    [post] is carried over untouched. *)
Theorem replace_first_occurrence_only
        (pre placeholder post value : jsstring)
        (Hne : truthy placeholder = true)
        (Hfirst : indexOf (pre ++ placeholder ++ post) placeholder
                  = Some (List.length pre))
        (Hval : dollar_free value = true) :
  resolve (pre ++ placeholder ++ post) [(placeholder, value)]
  = pre ++ value ++ post
  /\ occurrences placeholder (pre ++ placeholder ++ post)
     = S (occurrences placeholder post).
Proof.
  destruct (indexOf_Some _ _ _ Hfirst) as [_ Hmin].
  split.
  - cbn [resolve fold_left fst snd].
    rewrite (replace_leftmost _ _ _ value Hmin).
    now rewrite GetSubstitution_dollar_free.
  - apply occurrences_leftmost; [|exact Hmin].
    destruct placeholder; [discriminate|easy].
Qed.

Lemma replace_first_occurrence_only_witness :
  resolve (lit "a " ++ CONTENT_TOKEN ++ lit " b [CONTENT]")
          [(CONTENT_TOKEN, lit "x")]
  = lit "a " ++ lit "x" ++ lit " b [CONTENT]"
  /\ occurrences CONTENT_TOKEN (lit "a " ++ CONTENT_TOKEN ++ lit " b [CONTENT]")
     = S (occurrences CONTENT_TOKEN (lit " b [CONTENT]")).
Proof.
  apply (replace_first_occurrence_only
           (lit "a ") CONTENT_TOKEN (lit " b [CONTENT]") (lit "x"));
    reflexivity.
Defined.

(** *** Tokens that cannot overlap *)

Lemma CONTENT_TOKEN_units :
  CONTENT_TOKEN = [91; 67; 79; 78; 84; 69; 78; 84; 93]%N.
Proof. reflexivity. Qed.

Lemma KEYWORD_TOKEN_units :
  KEYWORD_TOKEN = [91; 75; 69; 89; 87; 79; 82; 68; 93]%N.
Proof. reflexivity. Qed.

Lemma keyword_token_units :
  keyword_token = [91; 107; 101; 121; 119; 111; 114; 100; 93]%N.
Proof. reflexivity. Qed.

(** Splits on whether a list has at least nine elements, a token's
    length; with fewer, the equation [H] must be contradictory. *)
Ltac at_least_token l H :=
  do 9 (destruct l as [|? l]; [simpl in H; exfalso; congruence|]).

(** A [[keyword]] lying inside [[CONTENT] ++ post] lies inside [post]. *)
Lemma keyword_after_content (a b post : jsstring) :
  a ++ keyword_token ++ b = CONTENT_TOKEN ++ post ->
  exists b', post = b' ++ keyword_token ++ b.
Proof.
  rewrite keyword_token_units, CONTENT_TOKEN_units. intros H.
  at_least_token a H.
  simpl in H. injection H as _ _ _ _ _ _ _ _ _ <-. now exists a.
Qed.

(** A [[keyword]] at the front of [pre ++ [CONTENT] ++ post] lies inside
    [pre]. *)
Lemma keyword_before_content (b pre post : jsstring) :
  keyword_token ++ b = pre ++ CONTENT_TOKEN ++ post ->
  exists a', pre = keyword_token ++ a'.
Proof.
  rewrite keyword_token_units, CONTENT_TOKEN_units. intros H.
  at_least_token pre H.
  simpl in H. injection H; intros; subst. now exists pre.
Qed.

(** An occurrence of [[keyword]] never straddles an occurrence of
    [[CONTENT]]. *)
Lemma keyword_token_apart (a b pre post : jsstring) :
  a ++ keyword_token ++ b = pre ++ CONTENT_TOKEN ++ post ->
  contains keyword_token pre \/ contains keyword_token post.
Proof.
  revert pre; induction a as [|x a IH]; intros pre H.
  - left. destruct (keyword_before_content _ _ _ H) as [a' ->].
    now exists [], a'.
  - destruct pre as [|c pre].
    + right. destruct (keyword_after_content (x :: a) b post H) as [b' ->].
      now exists b', b.
    + simpl in H. injection H as -> H.
      destruct (IH _ H) as [(u & v & ->) | Hpost]; [left|now right].
      now exists (c :: u), v.
Qed.

Lemma contains_app_l (q s t : jsstring) :
  contains q s -> contains q (s ++ t).
Proof.
  intros (u & v & ->). exists u, (v ++ t). now rewrite <- !app_assoc.
Qed.

Lemma contains_app_r (q s t : jsstring) :
  contains q t -> contains q (s ++ t).
Proof.
  intros (u & v & ->). exists (s ++ u), v. now rewrite <- !app_assoc.
Qed.

(** The Review step binds [[CONTENT]] only: a [[keyword]] in the command
    is still there after resolution. *)
Lemma researchPrompt_keeps_keyword_token (prompt content : jsstring) :
  contains keyword_token prompt ->
  contains keyword_token (Step3Review.researchPrompt prompt content).
Proof.
  intros Hq. unfold Step3Review.researchPrompt, replace.
  destruct (indexOf prompt CONTENT_TOKEN) as [n|] eqn:E; [|exact Hq].
  destruct (indexOf_Some _ _ _ E) as [Hsplit _].
  cbv zeta.
  remember (firstn n prompt) as pre eqn:Hpre.
  remember (skipn (n + List.length CONTENT_TOKEN) prompt) as post eqn:Hpost.
  destruct Hq as (a & b & Hab). rewrite Hab in Hsplit.
  destruct (keyword_token_apart _ _ _ _ Hsplit) as [Hin|Hin].
  - now apply contains_app_l.
  - now apply contains_app_r, contains_app_r.
Qed.

(** C8: resolving with no bindings returns the template as it is; a
    binding whose placeholder the template lacks changes nothing and is no
    error; and a placeholder the step has no binding for ([[keyword]] at
    the Review step, which binds [[CONTENT]] only) stays in the output. *)
Theorem resolve_unmatched_verbatim :
  (forall t, resolve t [] = t)
  /\ (forall t placeholder value,
         indexOf t placeholder = None ->
         resolve t [(placeholder, value)] = t)
  /\ (forall prompt content,
         contains keyword_token prompt ->
         contains keyword_token
                  (resolve prompt [(CONTENT_TOKEN, content)])).
Proof.
  split; [reflexivity|split].
  - intros t p v H. cbn [resolve fold_left fst snd]. now apply replace_absent.
  - intros prompt content. rewrite <- researchPrompt_resolve.
    apply researchPrompt_keeps_keyword_token.
Qed.

Lemma resolve_unmatched_verbatim_witness :
  resolve Step3Review.DEFAULT_PROMPT [] = Step3Review.DEFAULT_PROMPT
  /\ resolve (lit "about [keyword]") [(CONTENT_TOKEN, lit "x")]
     = lit "about [keyword]"
  /\ contains keyword_token
              (resolve Step3Review.DEFAULT_PROMPT [(CONTENT_TOKEN, lit "x")]).
Proof.
  destruct resolve_unmatched_verbatim as (Hnil & Habsent & Hkeep).
  split; [apply Hnil|split].
  - apply Habsent. reflexivity.
  - apply Hkeep.
    exists (lit "This is research content about articles on "),
           (skipn 52 Step3Review.DEFAULT_PROMPT).
    reflexivity.
Defined.

(** *** Where the next occurrence can start *)

Lemma startsWith_head_mismatch (h c : cu) (p s : jsstring) :
  N.eqb c h = false -> startsWith (h :: p) (c :: s) = false.
Proof.
  intros H. simpl. now rewrite N.eqb_sym, H.
Qed.

(** A stretch without the pattern's first code unit starts no occurrence. *)
Lemma starts_none_within_lacking (h : cu) (p a t : jsstring) :
  lacks h a = true -> starts_none_within (h :: p) a t.
Proof.
  unfold starts_none_within.
  induction a as [|c a IH]; intros Hl m Hm; [simpl in Hm; lia|].
  simpl in Hl. apply andb_prop in Hl as [Hc Ha].
  destruct m as [|m].
  - apply startsWith_head_mismatch. now destruct (N.eqb c h).
  - simpl. apply IH; [exact Ha|simpl in Hm; lia].
Qed.

(** A stretch that does not contain the pattern, followed by a code unit
    the pattern lacks, starts no occurrence either. *)
Lemma starts_none_within_absent (p k t : jsstring) (d : cu) :
  indexOf k p = None -> lacks d p = true ->
  starts_none_within p k (d :: t).
Proof.
  intros Habs Hd m Hm.
  rewrite skipn_app.
  replace (m - List.length k) with 0 by lia. cbn [skipn].
  destruct (startsWith p (skipn m k ++ d :: t)) eqn:E; [|reflexivity].
  exfalso. apply startsWith_app_inv in E
    as [Hin | (p1 & p2 & -> & Hne & _ & Hp2)].
  - rewrite (indexOf_None _ _ Habs m) in Hin by lia. discriminate.
  - destruct p2 as [|x p2]; [contradiction|].
    simpl in Hp2. apply andb_prop in Hp2 as [Hx _].
    apply N.eqb_eq in Hx; subst x.
    unfold lacks in Hd. rewrite forallb_app in Hd.
    apply andb_prop in Hd as [_ Hd]. simpl in Hd.
    now rewrite N.eqb_refl in Hd.
Qed.

Lemma starts_none_within_app (p a b t : jsstring) :
  starts_none_within p a (b ++ t) -> starts_none_within p b t ->
  starts_none_within p (a ++ b) t.
Proof.
  intros Ha Hb m Hm. rewrite <- app_assoc.
  destruct (Nat.lt_ge_cases m (List.length a)) as [Hlt|Hge].
  - now apply Ha.
  - rewrite skipn_app, (skipn_all2 a) by lia. cbn [app].
    apply Hb. rewrite length_app in Hm. lia.
Qed.

(** A prefix test looks at no more than the pattern's length. *)
Lemma startsWith_app_long (p u w : jsstring) :
  List.length p <= List.length u ->
  startsWith p (u ++ w) = startsWith p u.
Proof.
  revert u; induction p as [|a p IH]; intros u Hlen; [reflexivity|].
  destruct u as [|c u]; [simpl in Hlen; lia|].
  simpl. rewrite IH; [reflexivity|simpl in Hlen; lia].
Qed.

(** The leftmost occurrence in [k1 ++ p ++ k2] stays the leftmost when
    more text follows. *)
Lemma starts_none_within_extend (p k1 k2 t : jsstring) :
  indexOf (k1 ++ p ++ k2) p = Some (List.length k1) ->
  starts_none_within p k1 (p ++ k2 ++ t).
Proof.
  intros H m Hm. destruct (indexOf_Some _ _ _ H) as [_ Hmin].
  specialize (Hmin m Hm).
  rewrite skipn_app in *.
  replace (m - List.length k1) with 0 in * by lia. cbn [skipn] in *.
  replace (skipn m k1 ++ p ++ k2 ++ t)
    with ((skipn m k1 ++ p) ++ (k2 ++ t)) by now rewrite <- app_assoc.
  replace (skipn m k1 ++ p ++ k2)
    with ((skipn m k1 ++ p) ++ k2) in Hmin by now rewrite <- app_assoc.
  rewrite startsWith_app_long in * by (rewrite length_app; lia).
  exact Hmin.
Qed.

Lemma DEFAULT_PROMPT_split :
  Step4Analysis.DEFAULT_PROMPT
  = promptHead ++ KEYWORD_TOKEN ++ promptBody ++ CONTENT_TOKEN.
Proof. reflexivity. Qed.

(** The first [replace] of the Analysis step puts the keyword, with its
    [$] patterns expanded, between the quotes. *)
Lemma replace_keyword (keyword : jsstring) :
  replace Step4Analysis.DEFAULT_PROMPT KEYWORD_TOKEN keyword
  = promptHead
      ++ GetSubstitution KEYWORD_TOKEN promptHead
                         (promptBody ++ CONTENT_TOKEN) keyword
      ++ promptBody ++ CONTENT_TOKEN.
Proof.
  rewrite DEFAULT_PROMPT_split.
  apply (replace_leftmost promptHead KEYWORD_TOKEN
                          (promptBody ++ CONTENT_TOKEN) keyword).
  rewrite KEYWORD_TOKEN_units.
  now apply starts_none_within_lacking.
Qed.

(** C2, as stated, fails: with the keyword [[CONTENT]] the second
    [replace] of the Analysis step finds the token that the first one just
    inserted; the research text lands between the quotes and the
    template's own [[CONTENT]] is left over. *)
Lemma inserted_value_rescanned_counterexample :
  let keyword := lit "[CONTENT]" in
  let research := lit "R" in
  contains CONTENT_TOKEN keyword
  /\ Step4Analysis.initializedPrompt keyword research
     = promptHead ++ research ++ promptBody ++ CONTENT_TOKEN
  /\ Step4Analysis.initializedPrompt keyword research
     <> promptHead ++ keyword ++ promptBody ++ research.
Proof.
  cbv zeta. split; [now exists [], []|].
  split; [reflexivity|].
  vm_compute. discriminate.
Qed.

(** C2, amended: the bindings are applied one after another, [[KEYWORD]]
    and then [[CONTENT]], each [replace] scanning the whole text the one
    before it produced.  With values free of [$]: a keyword that does not
    contain [[CONTENT]] is inserted as it is and so is the research text
    (the value of the last binding is never scanned again); a keyword that
    does contain [[CONTENT]] has its first such token replaced by the
    research text, and the template's own token stays. *)
Theorem initializedPrompt_sequential
        (keyword research : jsstring)
        (Hkeyword : dollar_free keyword = true)
        (Hresearch : dollar_free research = true) :
  (indexOf keyword CONTENT_TOKEN = None ->
   Step4Analysis.initializedPrompt keyword research
   = promptHead ++ keyword ++ promptBody ++ research)
  /\ (forall k1 k2,
         keyword = k1 ++ CONTENT_TOKEN ++ k2 ->
         indexOf keyword CONTENT_TOKEN = Some (List.length k1) ->
         Step4Analysis.initializedPrompt keyword research
         = promptHead ++ k1 ++ research ++ k2
             ++ promptBody ++ CONTENT_TOKEN).
Proof.
  unfold Step4Analysis.initializedPrompt.
  rewrite replace_keyword, (GetSubstitution_dollar_free _ _ _ _ Hkeyword).
  assert (Hhead : forall t, starts_none_within CONTENT_TOKEN promptHead t).
  { intros t. rewrite CONTENT_TOKEN_units.
    now apply starts_none_within_lacking. }
  assert (Hbody : forall t, starts_none_within CONTENT_TOKEN promptBody t).
  { intros t. rewrite CONTENT_TOKEN_units.
    now apply starts_none_within_lacking. }
  split.
  - intros Habs.
    replace (promptHead ++ keyword ++ promptBody ++ CONTENT_TOKEN)
      with ((promptHead ++ keyword ++ promptBody) ++ CONTENT_TOKEN ++ [])
      by now rewrite app_nil_r, <- !app_assoc.
    rewrite replace_leftmost.
    + rewrite (GetSubstitution_dollar_free _ _ _ _ Hresearch).
      now rewrite app_nil_r, <- !app_assoc.
    + apply starts_none_within_app; [apply Hhead|].
      apply starts_none_within_app; [|apply Hbody].
      apply (starts_none_within_absent CONTENT_TOKEN keyword
               (skipn 1 promptBody ++ CONTENT_TOKEN ++ []) 34%N);
        [exact Habs|reflexivity].
  - intros k1 k2 -> Hfirst.
    replace (promptHead ++ (k1 ++ CONTENT_TOKEN ++ k2)
               ++ promptBody ++ CONTENT_TOKEN)
      with ((promptHead ++ k1) ++ CONTENT_TOKEN
              ++ (k2 ++ promptBody ++ CONTENT_TOKEN))
      by now rewrite <- !app_assoc.
    rewrite replace_leftmost.
    + rewrite (GetSubstitution_dollar_free _ _ _ _ Hresearch).
      now rewrite <- !app_assoc.
    + apply starts_none_within_app; [apply Hhead|].
      replace (k2 ++ promptBody ++ CONTENT_TOKEN)
        with (k2 ++ (promptBody ++ CONTENT_TOKEN)) by reflexivity.
      now apply starts_none_within_extend.
Qed.

Lemma initializedPrompt_sequential_witness :
  Step4Analysis.initializedPrompt (lit "tea") (lit "see [KEYWORD] and [CONTENT]")
  = promptHead ++ lit "tea" ++ promptBody
      ++ lit "see [KEYWORD] and [CONTENT]"
  /\ Step4Analysis.initializedPrompt (lit "a[CONTENT]b") (lit "R")
     = promptHead ++ lit "a" ++ lit "R" ++ lit "b"
         ++ promptBody ++ CONTENT_TOKEN.
Proof.
  split.
  - apply (initializedPrompt_sequential
             (lit "tea") (lit "see [KEYWORD] and [CONTENT]")
             eq_refl eq_refl).
    reflexivity.
  - apply (proj2 (initializedPrompt_sequential
                    (lit "a[CONTENT]b") (lit "R") eq_refl eq_refl)
                 (lit "a") (lit "b"));
      reflexivity.
Defined.

(** ** ResearchFormatter *)

Section JoinedBlocks.
Variable blk : SearchResult -> jsstring.

Lemma join_cons (sep x : jsstring) (rest : list jsstring) :
  rest <> [] -> join sep (x :: rest) = x ++ sep ++ join sep rest.
Proof. destruct rest; [contradiction|reflexivity]. Qed.

(** The block of a listed result is in the output, after the blocks of
    the results before it. *)
Lemma join_blocks_mid (before : list SearchResult) (a : SearchResult)
      (after : list SearchResult) :
  exists tail,
    join nl (List.map blk (before ++ a :: after))
    = join nl (List.map blk before)
        ++ match before with [] => [] | _ :: _ => nl end ++ blk a ++ tail.
Proof.
  induction before as [|b before IH].
  - destruct after as [|c after].
    + exists []. simpl. now rewrite app_nil_r.
    + exists (nl ++ join nl (List.map blk (c :: after))). reflexivity.
  - destruct IH as [tail IH].
    change (List.map blk ((b :: before) ++ a :: after))
      with (blk b :: List.map blk (before ++ a :: after)).
    rewrite join_cons by (destruct before; discriminate).
    rewrite IH. exists tail.
    destruct before as [|b' before].
    + simpl. now rewrite <- ?app_assoc.
    + change (List.map blk (b :: b' :: before))
        with (blk b :: List.map blk (b' :: before)).
      rewrite join_cons by discriminate.
      now rewrite <- ?app_assoc.
Qed.

(** Of two listed results, the earlier one's block comes first. *)
Lemma join_blocks_ordered (before : list SearchResult) (a : SearchResult)
      (between : list SearchResult) (b : SearchResult)
      (after : list SearchResult) :
  exists p q r,
    join nl (List.map blk (before ++ a :: between ++ b :: after))
    = p ++ blk a ++ q ++ blk b ++ r.
Proof.
  destruct (join_blocks_mid (before ++ a :: between) b after) as [r Hb].
  destruct (join_blocks_mid before a between) as [q Ha].
  rewrite <- app_assoc in Hb. cbn [app] in Hb. rewrite Hb, Ha.
  set (sa := match before with [] => [] | _ :: _ => nl end).
  set (sb := match before ++ a :: between with [] => [] | _ :: _ => nl end).
  exists (join nl (List.map blk before) ++ sa), (q ++ sb), r.
  now rewrite <- !app_assoc.
Qed.
End JoinedBlocks.

Lemma occurs_at_here (pre p post : jsstring) :
  occurs_at p (List.length pre) (pre ++ p ++ post) = true.
Proof.
  unfold occurs_at. apply andb_true_intro. split.
  - apply Nat.leb_le. rewrite length_app. lia.
  - rewrite skipn_app, Nat.sub_diag, skipn_all. cbn [skipn app].
    apply startsWith_app.
Qed.

(** When every block opens with ["# "] and the title, three results have
    their titles in the output in the order of the results. *)
Lemma titles_in_order (blk rest : SearchResult -> jsstring)
      (A B C : SearchResult) :
  (forall r, blk r = lit "# " ++ title r ++ rest r) ->
  exists i j k,
    i < j /\ j < k
    /\ occurs_at (title A) i (join nl (List.map blk [A; B; C])) = true
    /\ occurs_at (title B) j (join nl (List.map blk [A; B; C])) = true
    /\ occurs_at (title C) k (join nl (List.map blk [A; B; C])) = true.
Proof.
  intros Hblk. cbn [List.map join]. rewrite !Hblk.
  set (hash := lit "# ").
  exists (List.length hash),
    (List.length (hash ++ title A ++ rest A ++ nl ++ hash)),
    (List.length (hash ++ title A ++ rest A ++ nl ++ hash ++ title B
                   ++ rest B ++ nl ++ hash)).
  split; [rewrite !length_app; simpl; lia|].
  split; [rewrite !length_app; simpl; lia|].
  split; [|split].
  - rewrite <- !app_assoc. apply occurs_at_here.
  - replace ((hash ++ title A ++ rest A) ++ nl ++ (hash ++ title B ++ rest B)
               ++ nl ++ hash ++ title C ++ rest C)
      with ((hash ++ title A ++ rest A ++ nl ++ hash) ++ title B
              ++ (rest B ++ nl ++ hash ++ title C ++ rest C))
      by now rewrite <- ?app_assoc.
    apply occurs_at_here.
  - replace ((hash ++ title A ++ rest A) ++ nl ++ (hash ++ title B ++ rest B)
               ++ nl ++ hash ++ title C ++ rest C)
      with ((hash ++ title A ++ rest A ++ nl ++ hash ++ title B
               ++ rest B ++ nl ++ hash) ++ title C ++ rest C)
      by now rewrite <- ?app_assoc.
    apply occurs_at_here.
Qed.

Lemma join_blocks_in_order (blk : SearchResult -> jsstring) :
  emits_in_order (fun results => join nl (List.map blk results)) blk.
Proof.
  repeat split; try reflexivity.
  intros. apply join_blocks_ordered.
Qed.

(** C7: both versions of the formatter emit one block per result in the
    order of the input, each block closed by the rule line and consecutive
    blocks joined by a newline; for three results the titles occur at
    strictly increasing indices of the output. *)
Theorem format_preserves_input_order
        (htmlToMarkdown : option (jsstring -> jsstring)) :
  (emits_in_order Step3Review.format Step3Review.block
   /\ ends_with_rule Step3Review.block
   /\ titles_increasing Step3Review.format)
  /\ (emits_in_order (Step3ReviewMd.format htmlToMarkdown)
                     (Step3ReviewMd.block htmlToMarkdown)
      /\ ends_with_rule (Step3ReviewMd.block htmlToMarkdown)
      /\ titles_increasing (Step3ReviewMd.format htmlToMarkdown)).
Proof.
  split; (split; [apply join_blocks_in_order|split]).
  - intros r.
    exists (lit "# " ++ title r ++ nl ++ nl
            ++ lit "Source: " ++ url r ++ nl ++ nl
            ++ lit "Key Points:" ++ nl
            ++ join nl (List.map (fun p => lit "- " ++ p)
                                 (Step3Review.titlePoints r)) ++ nl ++ nl
            ++ lit "Summary:" ++ nl
            ++ Step3Review.cleanSnippet r ++ nl ++ nl).
    unfold Step3Review.block. now rewrite <- !app_assoc.
  - intros A B C. unfold Step3Review.format.
    eapply titles_in_order. intros r. unfold Step3Review.block. reflexivity.
  - intros r.
    exists (lit "# " ++ title r ++ nl ++ nl
            ++ lit "Source: " ++ url r ++ nl ++ nl
            ++ lit "## Summary" ++ nl
            ++ or_else (snippet r) (lit "No summary available") ++ nl ++ nl
            ++ lit "## Full Content" ++ nl
            ++ Step3ReviewMd.markdownContent htmlToMarkdown r ++ nl ++ nl).
    unfold Step3ReviewMd.block. now rewrite <- !app_assoc.
  - intros A B C. unfold Step3ReviewMd.format.
    eapply titles_in_order. intros r. unfold Step3ReviewMd.block.
    reflexivity.
Qed.

(** C6, as stated, fails for the formatter of Step3Review.tsx: its block
    is built from the title, the address and the snippet alone, so a
    result without content and snippet gets no fallback text, and a
    result's content never shows. *)
Lemma heuristic_block_fallback_counterexample :
  let r := mkSearchResult (lit "A") (lit "u1") [] None (lit "kw") in
  truthy_opt (content r) = false
  /\ truthy (snippet r) = false
  /\ indexOf (Step3Review.block r) (lit "No content available") = None
  /\ Step3Review.block (withContent (Some (lit "<p>Body</p>")) r)
     = Step3Review.block r
  /\ indexOf (Step3Review.block (withContent (Some (lit "<p>Body</p>")) r))
             (lit "Body") = None.
Proof. vm_compute. repeat split. Qed.

(** C6, amended: in the version of the Review step that formats through
    [htmlToMarkdown], a block ends with its body, the rule and a newline;
    the body is the content run through the converter when the content is
    present (the content itself when the converter is no function),
    otherwise the snippet when that is present, otherwise the text
    "No content available".  The formatter of Step3Review.tsx takes the
    body from the snippet whatever the content is. *)
Theorem markdown_block_body (htmlToMarkdown : option (jsstring -> jsstring))
        (r : SearchResult) :
  (exists head,
      Step3ReviewMd.block htmlToMarkdown r
      = head ++ Step3ReviewMd.markdownContent htmlToMarkdown r
          ++ nl ++ nl ++ lit "---" ++ nl)
  /\ (forall c, content r = Some c -> truthy c = true ->
                Step3ReviewMd.markdownContent htmlToMarkdown r
                = match htmlToMarkdown with
                  | Some convert => convert c
                  | None => c
                  end)
  /\ (truthy_opt (content r) = false -> truthy (snippet r) = true ->
      Step3ReviewMd.markdownContent htmlToMarkdown r = snippet r)
  /\ (truthy_opt (content r) = false -> truthy (snippet r) = false ->
      Step3ReviewMd.markdownContent htmlToMarkdown r
      = lit "No content available"
      /\ contains (lit "No content available")
                  (Step3ReviewMd.block htmlToMarkdown r))
  /\ (forall c, Step3Review.block (withContent c r) = Step3Review.block r).
Proof.
  assert (Hshape :
            Step3ReviewMd.block htmlToMarkdown r
            = (lit "# " ++ title r ++ nl ++ nl
               ++ lit "Source: " ++ url r ++ nl ++ nl
               ++ lit "## Summary" ++ nl
               ++ or_else (snippet r) (lit "No summary available")
               ++ nl ++ nl ++ lit "## Full Content" ++ nl)
              ++ Step3ReviewMd.markdownContent htmlToMarkdown r
              ++ nl ++ nl ++ lit "---" ++ nl).
  { unfold Step3ReviewMd.block. now rewrite <- !app_assoc. }
  assert (Hfalsy :
            truthy_opt (content r) = false ->
            Step3ReviewMd.markdownContent htmlToMarkdown r
            = or_else (snippet r) (lit "No content available")).
  { unfold Step3ReviewMd.markdownContent, truthy_opt.
    destruct (content r) as [c|]; [|reflexivity].
    now intros ->. }
  split; [eexists; exact Hshape|].
  split; [|split; [|split]].
  - intros c Hc Ht. unfold Step3ReviewMd.markdownContent.
    now rewrite Hc, Ht.
  - intros Hc Hs. rewrite (Hfalsy Hc). unfold or_else. now rewrite Hs.
  - intros Hc Hs.
    assert (Hbody : Step3ReviewMd.markdownContent htmlToMarkdown r
                    = lit "No content available").
    { rewrite (Hfalsy Hc). unfold or_else. now rewrite Hs. }
    split; [exact Hbody|].
    rewrite Hshape, Hbody. eexists _, _. reflexivity.
  - intros c. reflexivity.
Qed.

Lemma markdown_block_body_witness :
  Step3ReviewMd.markdownContent
    (Some (fun html => lit "md:" ++ html))
    (mkSearchResult (lit "B") (lit "u2") (lit "s") (Some (lit "<p>x</p>"))
                    (lit "kw"))
  = lit "md:<p>x</p>"
  /\ Step3ReviewMd.markdownContent
       None (mkSearchResult (lit "B") (lit "u2") (lit "s") None (lit "kw"))
     = lit "s"
  /\ contains (lit "No content available")
              (Step3ReviewMd.block
                 None
                 (mkSearchResult (lit "A") (lit "u1") [] (Some []) (lit "kw"))).
Proof.
  split; [|split].
  - apply (proj1 (proj2 (markdown_block_body
                           (Some (fun html => lit "md:" ++ html))
                           (mkSearchResult (lit "B") (lit "u2") (lit "s")
                                           (Some (lit "<p>x</p>"))
                                           (lit "kw"))))
                 (lit "<p>x</p>") eq_refl eq_refl).
  - apply (proj1 (proj2 (proj2 (markdown_block_body
                                  None
                                  (mkSearchResult (lit "B") (lit "u2")
                                                  (lit "s") None
                                                  (lit "kw")))))
                 eq_refl eq_refl).
  - apply (proj2 (proj1 (proj2 (proj2 (proj2 (markdown_block_body
                                  None
                                  (mkSearchResult (lit "A") (lit "u1") []
                                                  (Some []) (lit "kw"))))))
                 eq_refl eq_refl)).
Defined.

(** C9: what the Review step's handler hands on as keyword and research
    text is a function of the [results] prop alone: it is the formatted
    results whatever the component's state (the render's snapshot and the
    store) is, so two runs on the same results give the same text.  The
    later version stores, for a given converter, the formatted results
    likewise. *)
Theorem format_deterministic (results : list SearchResult)
        (snap1 snap2 store1 store2 : Step3Review.State)
        (htmlToMarkdown : option (jsstring -> jsstring))
        (mdSnap1 mdSnap2 mdStore1 mdStore2 : Step3ReviewMd.State) :
  researchSent (snd (run (Step3Review.handleProcess results snap1) store1))
  = match results with
    | [] => []
    | _ :: _ => [(firstKeyword results, Step3Review.format results)]
    end
  /\ researchSent (snd (run (Step3Review.handleProcess results snap1) store1))
     = researchSent
         (snd (run (Step3Review.handleProcess results snap2) store2))
  /\ match results with
     | [] => True
     | _ :: _ =>
         Step3ReviewMd.processedContent
           (snd (fst (run (Step3ReviewMd.handleProcess
                             htmlToMarkdown results mdSnap1) mdStore1)))
         = Step3ReviewMd.format htmlToMarkdown results
         /\ Step3ReviewMd.processedContent
              (snd (fst (run (Step3ReviewMd.handleProcess
                                htmlToMarkdown results mdSnap1) mdStore1)))
            = Step3ReviewMd.processedContent
                (snd (fst (run (Step3ReviewMd.handleProcess
                                  htmlToMarkdown results mdSnap2) mdStore2)))
     end.
Proof.
  destruct results as [|r results]; repeat split; reflexivity.
Qed.

(** ** The Analysis step's handlers *)

(** A generation that succeeds stores the stand-in result and shows it. *)
Lemma generateStyleAnalysis_resolved (store : Step4Analysis.State) :
  run (Step4Analysis.generateStyleAnalysis Step4Analysis.Resolved) store
  = (Normal tt,
     Step4Analysis.setIsGenerating false
       (Step4Analysis.setShowResults true
          (Step4Analysis.setAnalysisResult Step4Analysis.PLACEHOLDER_RESULT
             (Step4Analysis.setIsGenerating true store))),
     []).
Proof. reflexivity. Qed.

(** A generation that fails is logged and clears the busy flag; the stored
    result and the other state variables are as before, and nothing is
    handed to [onNext]. *)
Lemma generateStyleAnalysis_rejected (store : Step4Analysis.State)
      (error : jsstring) :
  run (Step4Analysis.generateStyleAnalysis (Step4Analysis.Rejected error))
      store
  = (Normal tt,
     Step4Analysis.setIsGenerating false
       (Step4Analysis.setIsGenerating true store),
     [ConsoleError (lit "Error generating analysis:") error])
  /\ Step4Analysis.analysisResult
       (Step4Analysis.setIsGenerating false
          (Step4Analysis.setIsGenerating true store))
     = Step4Analysis.analysisResult store
  /\ Step4Analysis.showResults
       (Step4Analysis.setIsGenerating false
          (Step4Analysis.setIsGenerating true store))
     = Step4Analysis.showResults store
  /\ Step4Analysis.isGenerating
       (Step4Analysis.setIsGenerating false
          (Step4Analysis.setIsGenerating true store))
     = false.
Proof. repeat split. Qed.

(** Pressed with no stored result and nothing running, [handleProcess]
    outlives a failed generation: the failure is logged inside
    [generateStyleAnalysis], and [onNext] is called all the same. *)
Lemma handleProcess_rejected (snap : Step4Analysis.State) (error : jsstring) :
  Step4Analysis.analysisResult snap = [] ->
  Step4Analysis.isGenerating snap = false ->
  run (Step4Analysis.handleProcess (Step4Analysis.Rejected error) snap) snap
  = (Normal tt,
     Step4Analysis.setIsProcessing false
       (Step4Analysis.setIsGenerating false
          (Step4Analysis.setIsGenerating true
             (Step4Analysis.setIsProcessing true snap))),
     [ConsoleError (lit "Error generating analysis:") error;
      OnNext (AnalysisNext [])]).
Proof.
  intros Hempty Hidle.
  unfold Step4Analysis.handleProcess. rewrite Hempty, Hidle. reflexivity.
Qed.

(** C10: pressed with no stored result and no generation running, the
    Analysis step's [handleProcess] runs the generation to its end (the
    store then holds the stand-in result) and calls [onNext] with the
    result its render saw, the empty string. *)
Theorem handleProcess_passes_stale_result
        (snap : Step4Analysis.State)
        (Hempty : Step4Analysis.analysisResult snap = [])
        (Hidle : Step4Analysis.isGenerating snap = false) :
  let final :=
    Step4Analysis.setIsProcessing false
      (Step4Analysis.setIsGenerating false
         (Step4Analysis.setShowResults true
            (Step4Analysis.setAnalysisResult Step4Analysis.PLACEHOLDER_RESULT
               (Step4Analysis.setIsGenerating true
                  (Step4Analysis.setIsProcessing true snap))))) in
  run (Step4Analysis.handleProcess Step4Analysis.Resolved snap) snap
  = (Normal tt, final, [OnNext (AnalysisNext [])])
  /\ Step4Analysis.analysisResult final = Step4Analysis.PLACEHOLDER_RESULT
  /\ Step4Analysis.PLACEHOLDER_RESULT <> [].
Proof.
  cbv zeta. split; [|split; [reflexivity|discriminate]].
  unfold Step4Analysis.handleProcess. rewrite Hempty, Hidle. reflexivity.
Qed.

Lemma handleProcess_passes_stale_result_witness :
  snd (run (Step4Analysis.handleProcess
              Step4Analysis.Resolved
              (Step4Analysis.initialState (lit "tea") (lit "R")))
           (Step4Analysis.initialState (lit "tea") (lit "R")))
  = [OnNext (AnalysisNext [])].
Proof.
  rewrite (proj1 (handleProcess_passes_stale_result
                    (Step4Analysis.initialState (lit "tea") (lit "R"))
                    eq_refl eq_refl)).
  reflexivity.
Defined.


(** ** The wizard's transitions *)

Lemma back_frame (w : Wizard.Wizard) :
  Wizard.active (Wizard.back w) = Wizard.previous (Wizard.active w)
  /\ Wizard.context (Wizard.back w) = Wizard.context w
  /\ Wizard.reviewStep (Wizard.back w) = Wizard.reviewStep w
  /\ Wizard.analysisStep (Wizard.back w) = Wizard.analysisStep w.
Proof. repeat split. Qed.




(** C4: an advance into Review with no search results is refused with
    [MissingPrerequisite] and returns the wizard as it was, its pointer on
    Search and its context unmerged.  The Review step has the same gate on
    its own forward handler: without results [handleProcess] returns at
    once, touching no state and calling no [onNext], the button is
    disabled, and pressing it leaves the wizard where it is. *)
Theorem advance_without_results_blocked
        (w : Wizard.Wizard)
        (Hactive : Wizard.active w = Wizard.Search) :
  Wizard.advance w (Wizard.SearchOutput [])
  = (w, Some Wizard.MissingPrerequisite)
  /\ (forall snap store,
         run (Step3Review.handleProcess [] snap) store = (Normal tt, store, [])
         /\ Step3Review.nextDisabled [] store = true)
  /\ (forall w',
         Wizard.active w' = Wizard.Review ->
         Wizard.searchResults (Wizard.context w') = [] ->
         Wizard.pressReviewNext w' = (w', [])).
Proof.
  split; [|split].
  - unfold Wizard.advance. now rewrite Hactive.
  - intros snap store. split; [reflexivity|].
    unfold Step3Review.nextDisabled. apply orb_true_r.
  - intros w' Ha Hr. unfold Wizard.pressReviewNext. rewrite Ha, Hr.
    destruct w'; reflexivity.
Qed.

Lemma advance_without_results_blocked_witness :
  Wizard.advance
    (Wizard.mkWizard
       Wizard.Search
       (Wizard.mkContext (lit "gemini-1.5-pro") [] [] [] [] [])
       Step3Review.initialState None)
    (Wizard.SearchOutput [])
  = (Wizard.mkWizard
       Wizard.Search
       (Wizard.mkContext (lit "gemini-1.5-pro") [] [] [] [] [])
       Step3Review.initialState None,
     Some Wizard.MissingPrerequisite).
Proof.
  apply (advance_without_results_blocked
           (Wizard.mkWizard
              Wizard.Search
              (Wizard.mkContext (lit "gemini-1.5-pro") [] [] [] [] [])
              Step3Review.initialState None)
           eq_refl).
Defined.

(** * Further properties of the steps *)

(** ** Replacement patterns in the inserted text *)

Lemma GetSubstitution_app_free (matched before after x y : jsstring) :
  dollar_free x = true ->
  GetSubstitution matched before after (x ++ y)
  = x ++ GetSubstitution matched before after y.
Proof.
  unfold dollar_free.
  induction x as [|c x IH]; intros Hfree; [reflexivity|].
  simpl in Hfree. apply andb_prop in Hfree as [Hc Hx].
  cbn [app GetSubstitution].
  destruct (N.eqb c dollar); [discriminate|].
  now rewrite IH.
Qed.

(** Research text is not always inserted as written: in it, [$$] becomes
    one [$], [$&] becomes the [[CONTENT]] token again, and [$`] and [$']
    become the command's text before and after the token. *)
Theorem researchPrompt_dollar_patterns
        (pre post a b : jsstring)
        (Hfirst : indexOf (pre ++ CONTENT_TOKEN ++ post) CONTENT_TOKEN
                  = Some (List.length pre))
        (Ha : dollar_free a = true)
        (Hb : dollar_free b = true) :
  Step3Review.researchPrompt (pre ++ CONTENT_TOKEN ++ post)
                             (a ++ lit "$$" ++ b)
  = pre ++ (a ++ lit "$" ++ b) ++ post
  /\ Step3Review.researchPrompt (pre ++ CONTENT_TOKEN ++ post)
                                (a ++ lit "$&" ++ b)
     = pre ++ (a ++ CONTENT_TOKEN ++ b) ++ post
  /\ Step3Review.researchPrompt (pre ++ CONTENT_TOKEN ++ post)
                                (a ++ lit "$`" ++ b)
     = pre ++ (a ++ pre ++ b) ++ post
  /\ Step3Review.researchPrompt (pre ++ CONTENT_TOKEN ++ post)
                                (a ++ lit "$'" ++ b)
     = pre ++ (a ++ post ++ b) ++ post.
Proof.
  destruct (indexOf_Some _ _ _ Hfirst) as [_ Hmin].
  unfold Step3Review.researchPrompt.
  rewrite !(replace_leftmost _ _ _ _ Hmin).
  rewrite !(GetSubstitution_app_free _ _ _ _ _ Ha).
  change (lit "$$") with [36; 36]%N. change (lit "$&") with [36; 38]%N.
  change (lit "$`") with [36; 96]%N. change (lit "$'") with [36; 39]%N.
  cbn [app GetSubstitution N.eqb Pos.eqb dollar].
  rewrite !(GetSubstitution_dollar_free _ _ _ _ Hb).
  repeat split; reflexivity.
Qed.

Lemma researchPrompt_dollar_patterns_witness :
  Step3Review.researchPrompt (lit "Sum up: [CONTENT]!")
                             (lit "US" ++ lit "$$" ++ lit "5")
  = lit "Sum up: US$5!"
  /\ Step3Review.researchPrompt (lit "Sum up: [CONTENT]!")
                                (lit "US" ++ lit "$&" ++ lit "5")
     = lit "Sum up: US[CONTENT]5!".
Proof.
  split.
  - apply (proj1 (researchPrompt_dollar_patterns
                    (lit "Sum up: ") (lit "!") (lit "US") (lit "5")
                    eq_refl eq_refl eq_refl)).
  - apply (proj1 (proj2 (researchPrompt_dollar_patterns
                           (lit "Sum up: ") (lit "!") (lit "US") (lit "5")
                           eq_refl eq_refl eq_refl))).
Defined.

(** ** Pieces of a split and what [trim] leaves *)

Section SplitFacts.
Variable isSep : cu -> bool.

Lemma split_class_not_nil (s : jsstring) : split_class isSep s <> [].
Proof.
  destruct s as [|c s]; simpl; [discriminate|].
  destruct (isSep c); [discriminate|].
  destruct (split_class isSep s); discriminate.
Qed.

(** No piece contains a separator. *)
Lemma split_class_sep_free (s : jsstring) :
  Forall (fun p => forallb (fun c => negb (isSep c)) p = true)
         (split_class isSep s).
Proof.
  induction s as [|c s IH]; simpl.
  - repeat constructor.
  - destruct (isSep c) eqn:E.
    + constructor; [reflexivity|exact IH].
    + destruct (split_class isSep s) as [|p ps]; [repeat constructor|].
      * simpl. now rewrite E.
      * inversion IH as [|? ? Hp Hps]; subst.
        constructor; [|exact Hps]. simpl. now rewrite E, Hp.
Qed.

(** The first piece is a prefix of the string. *)
Lemma split_class_head_prefix (s : jsstring) :
  exists p ps rest, split_class isSep s = p :: ps /\ s = p ++ rest.
Proof.
  induction s as [|c s IH]; simpl.
  - now exists [], [], [].
  - destruct IH as (p & ps & rest & Hsplit & Hs).
    destruct (isSep c).
    + now exists [], (split_class isSep s), (c :: s).
    + rewrite Hsplit. exists (c :: p), ps, rest.
      split; [reflexivity|]. simpl. now f_equal.
Qed.

(** Every piece is a part of the string. *)
Lemma split_class_contains (s : jsstring) :
  Forall (fun p => contains p s) (split_class isSep s).
Proof.
  induction s as [|c s IH]; simpl.
  - constructor; [now exists [], []|constructor].
  - assert (Hshift : Forall (fun p => contains p (c :: s))
                            (split_class isSep s)).
    { eapply Forall_impl; [|exact IH].
      intros p (u & v & ->). now exists (c :: u), v. }
    destruct (isSep c).
    + constructor; [now exists [], (c :: s)|exact Hshift].
    + destruct (split_class_head_prefix s) as (p & ps & rest & Hsplit & Hs).
      rewrite Hsplit in *. inversion Hshift; subst.
      constructor; [|assumption].
      exists [], rest. simpl. now f_equal.
Qed.

(** A string without separators is its own single piece. *)
Lemma split_class_whole (s : jsstring) :
  forallb (fun c => negb (isSep c)) s = true -> split_class isSep s = [s].
Proof.
  induction s as [|c s IH]; intros H; [reflexivity|].
  simpl in H. apply andb_prop in H as [Hc Hs]. simpl.
  destruct (isSep c); [discriminate|]. now rewrite (IH Hs).
Qed.

(** One piece more than there are separators. *)
Lemma split_class_length (s : jsstring) :
  List.length (split_class isSep s) = S (List.length (filter isSep s)).
Proof.
  induction s as [|c s IH]; [reflexivity|]. simpl.
  destruct (isSep c); simpl; [now rewrite IH|].
  destruct (split_class isSep s) as [|p ps] eqn:E; [|exact IH].
  now apply split_class_not_nil in E.
Qed.
End SplitFacts.

Lemma contains_refl (s : jsstring) : contains s s.
Proof. exists [], []. now rewrite app_nil_r. Qed.

Lemma contains_trans (a b c : jsstring) :
  contains a b -> contains b c -> contains a c.
Proof.
  intros (u & v & ->) (x & y & ->).
  exists (x ++ u), (v ++ y). now rewrite <- !app_assoc.
Qed.

Lemma contains_length (p s : jsstring) :
  contains p s -> List.length p <= List.length s.
Proof. intros (u & v & ->). rewrite !length_app. lia. Qed.

Lemma contains_forallb (P : cu -> bool) (p s : jsstring) :
  contains p s -> forallb P s = true -> forallb P p = true.
Proof.
  intros (u & v & ->) H. rewrite !forallb_app in H.
  apply andb_prop in H as [_ H]. now apply andb_prop in H as [H _].
Qed.

Lemma trimStart_suffix (s : jsstring) : exists w, s = w ++ trimStart s.
Proof.
  induction s as [|c s [w IH]]; [now exists []|]. simpl.
  destruct (isWhite c); [|now exists []].
  exists (c :: w). simpl. now rewrite <- IH.
Qed.

Lemma trimStart_clean (s : jsstring) : starts_clean (trimStart s) = true.
Proof.
  induction s as [|c s IH]; [reflexivity|]. simpl.
  destruct (isWhite c) eqn:E; [exact IH|]. simpl. now rewrite E.
Qed.

Lemma trimStart_fix (s : jsstring) :
  starts_clean s = true -> trimStart s = s.
Proof.
  destruct s as [|c s]; [reflexivity|]. simpl.
  now destruct (isWhite c).
Qed.

Lemma starts_clean_app (x y : jsstring) :
  x <> [] -> starts_clean (x ++ y) = starts_clean x.
Proof. destruct x; [contradiction|reflexivity]. Qed.

(** What [trim] returns is a part of its argument. *)
Lemma trim_contains (s : jsstring) : contains (trim s) s.
Proof.
  unfold trim.
  destruct (trimStart_suffix s) as [w Hw].
  destruct (trimStart_suffix (rev (trimStart s))) as [w' Hw'].
  exists w, (rev w'). rewrite Hw at 1. f_equal.
  rewrite <- rev_app_distr, <- Hw'. now rewrite rev_involutive.
Qed.

(** What [trim] returns neither starts nor ends with white space. *)
Lemma trim_clean (s : jsstring) :
  starts_clean (trim s) = true /\ starts_clean (rev (trim s)) = true.
Proof.
  unfold trim. rewrite rev_involutive. split; [|apply trimStart_clean].
  destruct (trimStart_suffix (rev (trimStart s))) as [w' Hw'].
  destruct (trimStart (rev (trimStart s))) as [|c u]; [reflexivity|].
  assert (Ht : trimStart s = rev (c :: u) ++ rev w').
  { rewrite <- rev_app_distr, <- Hw'. now rewrite rev_involutive. }
  rewrite <- (starts_clean_app (rev (c :: u)) (rev w')).
  - rewrite <- Ht. apply trimStart_clean.
  - simpl. now destruct (rev u).
Qed.

Lemma trim_fix (s : jsstring) :
  starts_clean s = true -> starts_clean (rev s) = true -> trim s = s.
Proof.
  intros H1 H2. unfold trim.
  now rewrite (trimStart_fix _ H1), (trimStart_fix _ H2), rev_involutive.
Qed.

Lemma trim_idempotent (s : jsstring) : trim (trim s) = trim s.
Proof. apply trim_fix; apply trim_clean. Qed.

(** ** Step3Review.tsx: key points and summary *)

Lemma titlePoints_parts (r : SearchResult) :
  Forall (fun p =>
            10 < List.length p
            /\ forallb (fun c => negb (Step3Review.isTitleSep c)) p = true
            /\ trim p = p
            /\ contains p (title r))
         (Step3Review.titlePoints r).
Proof.
  apply Forall_forall. intros p Hin. unfold Step3Review.titlePoints in Hin.
  apply filter_In in Hin as [Hmap Hlen].
  apply in_map_iff in Hmap as (q & <- & Hq).
  pose proof (split_class_sep_free Step3Review.isTitleSep (title r)) as Hfree.
  pose proof (split_class_contains Step3Review.isTitleSep (title r)) as Hpart.
  rewrite Forall_forall in Hfree, Hpart.
  repeat split.
  - now apply Nat.ltb_lt.
  - apply (contains_forallb _ (trim q) q (trim_contains q)). now apply Hfree.
  - apply trim_idempotent.
  - apply (contains_trans (trim q) q); [apply trim_contains|now apply Hpart].
Qed.

(** Every key point of a block is a part of the title that is longer than
    ten code units, contains none of the separators [-], en dash, em dash
    and [:], and has no white space at either end. *)
Theorem titlePoints_wellformed (r : SearchResult) :
  Forall (fun p =>
            10 < List.length p
            /\ forallb (fun c => negb (Step3Review.isTitleSep c)) p = true
            /\ trim p = p
            /\ contains p (title r))
         (Step3Review.titlePoints r).
Proof. exact (titlePoints_parts r). Qed.

(** A title of at most ten code units gives no key points: the block's
    "Key Points:" section is empty. *)
Theorem short_title_no_points (r : SearchResult)
        (Hshort : List.length (title r) <= 10) :
  Step3Review.titlePoints r = []
  /\ exists before after,
       Step3Review.block r
       = before ++ lit "Key Points:" ++ nl ++ nl ++ nl ++ lit "Summary:"
           ++ after.
Proof.
  assert (Hnone : Step3Review.titlePoints r = []).
  { pose proof (titlePoints_parts r) as Hall.
    destruct (Step3Review.titlePoints r) as [|p ps]; [reflexivity|].
    inversion Hall as [|? ? (Hlen & _ & _ & Hpart) _]; subst.
    apply contains_length in Hpart. lia. }
  split; [exact Hnone|].
  unfold Step3Review.block. rewrite Hnone. cbn [List.map join].
  exists (lit "# " ++ title r ++ nl ++ nl ++ lit "Source: " ++ url r
          ++ nl ++ nl),
         (nl ++ Step3Review.cleanSnippet r ++ nl ++ nl ++ lit "---" ++ nl).
  cbn [app]. now rewrite <- !app_assoc.
Qed.

Lemma short_title_no_points_witness :
  Step3Review.titlePoints
    (mkSearchResult (lit "Tea: a") (lit "u1") (lit "s1") None (lit "tea"))
  = [].
Proof.
  apply (short_title_no_points
           (mkSearchResult (lit "Tea: a") (lit "u1") (lit "s1") None
                           (lit "tea"))).
  simpl. lia.
Defined.

Lemma cleanSnippet_sentences (r : SearchResult) :
  Step3Review.cleanSnippet r
  = join (lit ". ")
         (sentences (split_class Step3Review.isSentenceEnd
                                 (replace_ellipsis (snippet r)))).
Proof. reflexivity. Qed.

Lemma split_class_cons_sep (isSep : cu -> bool) (c : cu) (s : jsstring) :
  isSep c = true -> split_class isSep (c :: s) = [] :: split_class isSep s.
Proof. intros H. simpl. now rewrite H. Qed.

Lemma split_class_cons_other (isSep : cu -> bool) (c : cu) (s : jsstring) :
  isSep c = false ->
  split_class isSep (c :: s)
  = (c :: hd [] (split_class isSep s)) :: tl (split_class isSep s).
Proof.
  intros H. simpl. rewrite H. now destruct (split_class isSep s).
Qed.

Lemma sentences_nil_cons (pieces : list jsstring) :
  sentences ([] :: pieces) = sentences pieces.
Proof. reflexivity. Qed.

Lemma sentences_hd_tl (l1 l2 : list jsstring) :
  l1 <> [] -> l2 <> [] -> hd [] l1 = hd [] l2 ->
  sentences (tl l1) = sentences (tl l2) -> sentences l1 = sentences l2.
Proof.
  destruct l1 as [|a l1]; [contradiction|].
  destruct l2 as [|b l2]; [contradiction|].
  simpl. intros _ _ -> Htl. unfold sentences in *. simpl.
  now rewrite Htl.
Qed.

Lemma replace_ellipsis_step (a b c : cu) (s3 : jsstring) :
  replace_ellipsis (a :: b :: c :: s3)
  = if (N.eqb a 46 && N.eqb b 46 && N.eqb c 46)%bool
    then 46%N :: replace_ellipsis s3
    else a :: replace_ellipsis (b :: c :: s3).
Proof. reflexivity. Qed.

(** Splitting after the ellipsis replacement gives the same first piece
    and the same sentences after it as splitting the text itself. *)
Lemma ellipsis_split_invariant (n : nat) :
  forall s, List.length s <= n ->
    hd [] (split_class Step3Review.isSentenceEnd (replace_ellipsis s))
    = hd [] (split_class Step3Review.isSentenceEnd s)
    /\ sentences
         (tl (split_class Step3Review.isSentenceEnd (replace_ellipsis s)))
       = sentences (tl (split_class Step3Review.isSentenceEnd s)).
Proof.
  induction n as [|n IH]; intros s Hlen.
  - destruct s; [now split|simpl in Hlen; lia].
  - destruct s as [|a s1]; [now split|].
    destruct s1 as [|b [|c s3]]; try (now split).
    rewrite replace_ellipsis_step.
    destruct (N.eqb a 46 && N.eqb b 46 && N.eqb c 46)%bool eqn:Edots.
    + apply andb_prop in Edots as [Eab Ec]. apply andb_prop in Eab as [Ea Eb].
      apply N.eqb_eq in Ea, Eb, Ec. subst a b c.
      destruct (IH s3 ltac:(simpl in Hlen; lia)) as [Hhd Htl].
      rewrite !split_class_cons_sep by reflexivity.
      split; [reflexivity|]. cbn [tl]. rewrite !sentences_nil_cons.
      apply sentences_hd_tl; try apply split_class_not_nil; assumption.
    + destruct (IH (b :: c :: s3) ltac:(simpl in Hlen; simpl; lia))
        as [Hhd Htl].
      destruct (Step3Review.isSentenceEnd a) eqn:Ea.
      * rewrite !(split_class_cons_sep _ _ _ Ea).
        split; [reflexivity|]. cbn [tl].
        apply sentences_hd_tl; try apply split_class_not_nil; assumption.
      * rewrite !(split_class_cons_other _ _ _ Ea).
        cbn [hd tl]. now rewrite Hhd, Htl.
Qed.

Lemma ellipsis_sentences (s : jsstring) :
  sentences (split_class Step3Review.isSentenceEnd (replace_ellipsis s))
  = sentences (split_class Step3Review.isSentenceEnd s).
Proof.
  destruct (ellipsis_split_invariant (List.length s) s (le_n _)) as [Hhd Htl].
  apply sentences_hd_tl; try apply split_class_not_nil; assumption.
Qed.

(** Replacing the ellipses first changes nothing: the summary is the one
    obtained by splitting the snippet as it is, since the pieces between
    consecutive full stops are empty and dropped anyway. *)
Theorem cleanSnippet_ellipsis_redundant (r : SearchResult) :
  Step3Review.cleanSnippet r
  = join (lit ". ")
         (filter (fun s => 0 <? List.length s)
                 (List.map trim
                    (split_class Step3Review.isSentenceEnd (snippet r)))).
Proof.
  rewrite cleanSnippet_sentences, ellipsis_sentences. reflexivity.
Qed.

Lemma sentences_wellformed (isSep : cu -> bool) (s : jsstring) :
  Forall (fun p =>
            p <> []
            /\ forallb (fun c => negb (isSep c)) p = true
            /\ starts_clean p = true
            /\ starts_clean (rev p) = true)
         (sentences (split_class isSep s)).
Proof.
  apply Forall_forall. intros p Hin. unfold sentences in Hin.
  apply filter_In in Hin as [Hmap Hlen].
  apply in_map_iff in Hmap as (q & <- & Hq).
  pose proof (split_class_sep_free isSep s) as Hfree.
  rewrite Forall_forall in Hfree.
  repeat split; try apply trim_clean.
  - intros E. rewrite E in Hlen. discriminate.
  - apply (contains_forallb _ (trim q) q (trim_contains q)). now apply Hfree.
Qed.

Lemma join_forallb (P : cu -> bool) (sep : jsstring) (l : list jsstring) :
  forallb P sep = true ->
  Forall (fun p => forallb P p = true) l ->
  forallb P (join sep l) = true.
Proof.
  intros Hsep. induction l as [|x l IH]; intros Hall; [reflexivity|].
  inversion Hall as [|? ? Hx Hl]; subst.
  destruct l as [|y l]; [exact Hx|].
  change (join sep (x :: y :: l)) with (x ++ sep ++ join sep (y :: l)).
  rewrite !forallb_app, Hx, Hsep. now apply IH.
Qed.

Lemma join_not_nil (sep x : jsstring) (l : list jsstring) :
  x <> [] -> join sep (x :: l) <> [].
Proof.
  intros Hx. destruct l as [|y l]; [exact Hx|].
  change (join sep (x :: y :: l)) with (x ++ sep ++ join sep (y :: l)).
  destruct x; [contradiction|discriminate].
Qed.

Lemma rev_not_nil (s : jsstring) : s <> [] -> rev s <> [].
Proof.
  intros Hs E. apply Hs. rewrite <- (rev_involutive s), E. reflexivity.
Qed.

(** Joined pieces that are clean at both ends are clean at both ends. *)
Lemma join_clean (sep : jsstring) (l : list jsstring) :
  Forall (fun p => p <> [] /\ starts_clean p = true
                   /\ starts_clean (rev p) = true) l ->
  starts_clean (join sep l) = true
  /\ starts_clean (rev (join sep l)) = true.
Proof.
  induction l as [|x l IH]; intros Hall; [now split|].
  inversion Hall as [|? ? (Hx & Hs & He) Hl]; subst.
  destruct l as [|y l]; [now split|].
  change (join sep (x :: y :: l)) with (x ++ sep ++ join sep (y :: l)).
  split.
  - now rewrite starts_clean_app.
  - rewrite !rev_app_distr, <- app_assoc.
    rewrite starts_clean_app; [now apply IH|].
    apply rev_not_nil, join_not_nil.
    inversion Hl as [|? ? (Hy & _) _]; assumption.
Qed.

(** The summary of a block contains neither [!] nor [?], and it neither
    starts nor ends with white space. *)
Theorem cleanSnippet_plain (r : SearchResult) :
  forallb (fun c => negb (N.eqb c 33 || N.eqb c 63))
          (Step3Review.cleanSnippet r) = true
  /\ trim (Step3Review.cleanSnippet r) = Step3Review.cleanSnippet r.
Proof.
  rewrite cleanSnippet_sentences.
  pose proof (sentences_wellformed
                Step3Review.isSentenceEnd (replace_ellipsis (snippet r)))
    as Hall.
  split.
  - apply join_forallb; [reflexivity|].
    eapply Forall_impl; [|exact Hall].
    intros p (_ & Hfree & _). rewrite forallb_forall in *.
    intros c Hc. specialize (Hfree c Hc).
    unfold Step3Review.isSentenceEnd in Hfree.
    destruct (N.eqb c 46), (N.eqb c 33), (N.eqb c 63);
      simpl in *; congruence.
  - apply trim_fix; apply join_clean;
      (eapply Forall_impl; [|exact Hall]);
      intros p (Hne & _ & Hs & He); repeat split; assumption.
Qed.

(** A snippet without [.], [!] and [?] is one sentence: its summary is
    the snippet trimmed. *)
Theorem cleanSnippet_single_sentence (r : SearchResult)
        (Hone : forallb (fun c => negb (Step3Review.isSentenceEnd c))
                        (snippet r) = true) :
  Step3Review.cleanSnippet r = trim (snippet r).
Proof.
  rewrite cleanSnippet_sentences, ellipsis_sentences.
  rewrite (split_class_whole _ _ Hone). unfold sentences. simpl.
  now destruct (trim (snippet r)).
Qed.

Lemma cleanSnippet_single_sentence_witness :
  Step3Review.cleanSnippet
    (mkSearchResult (lit "A") (lit "u1") (lit "  green tea, hot ") None
                    (lit "tea"))
  = trim (lit "  green tea, hot ").
Proof.
  apply (cleanSnippet_single_sentence
           (mkSearchResult (lit "A") (lit "u1") (lit "  green tea, hot ")
                           None (lit "tea"))).
  reflexivity.
Defined.

(** ** Step4Analysis.tsx: rendering the analysis *)

Lemma elementKey_renderLine (i : nat) (line : jsstring) :
  elementKey (Step4AnalysisView.renderLine i line) = i.
Proof.
  unfold Step4AnalysisView.renderLine.
  destruct (startsWith (lit "# ") line); [reflexivity|].
  destruct (startsWith (lit "## ") line); [reflexivity|].
  destruct (startsWith (lit "* ") line); [reflexivity|].
  destruct (Step4AnalysisView.isNumbered line); [reflexivity|].
  now destruct line.
Qed.

Lemma map_fst_combine_seq {A : Type} (l : list A) (start : nat) :
  List.map fst (combine (seq start (List.length l)) l)
  = seq start (List.length l).
Proof.
  revert start; induction l as [|x l IH]; intros start; [reflexivity|].
  simpl. now rewrite IH.
Qed.

Lemma mapi_length {A B : Type} (f : nat -> A -> B) (l : list A) :
  List.length (Step4AnalysisView.mapi f l) = List.length l.
Proof.
  unfold Step4AnalysisView.mapi.
  rewrite length_map, length_combine, length_seq. lia.
Qed.

(** Non-empty content is rendered as one element per line, that is one
    more than it has newlines, keyed 0, 1, 2, ... in order; empty content
    renders as nothing. *)
Theorem render_one_element_per_line (content : jsstring)
        (Hcontent : truthy content = true) :
  Step4AnalysisView.renderFormattedContent [] = None
  /\ exists elements,
       Step4AnalysisView.renderFormattedContent content = Some elements
       /\ List.length elements
          = S (List.length (filter (N.eqb 10) content))
       /\ List.map elementKey elements = seq 0 (List.length elements).
Proof.
  split; [reflexivity|].
  unfold Step4AnalysisView.renderFormattedContent. rewrite Hcontent.
  eexists. split; [reflexivity|]. rewrite mapi_length. split.
  - apply split_class_length.
  - unfold Step4AnalysisView.mapi. rewrite map_map.
    rewrite (map_ext _ fst); [apply map_fst_combine_seq|].
    intros [i line]. apply elementKey_renderLine.
Qed.

Lemma render_one_element_per_line_witness :
  exists elements,
    Step4AnalysisView.renderFormattedContent
      (lit "# Style" ++ nl ++ nl ++ lit "1. Short sentences")
    = Some elements
    /\ List.length elements = 3.
Proof.
  destruct (render_one_element_per_line
              (lit "# Style" ++ nl ++ nl ++ lit "1. Short sentences")
              eq_refl) as (_ & elements & Hrender & Hlen & _).
  exists elements. split; [exact Hrender|exact Hlen].
Defined.

Lemma lacks_indexOf_None (c : cu) (s : jsstring) :
  lacks c s = true -> indexOf s [c] = None.
Proof.
  induction s as [|x s IH]; intros H; [reflexivity|].
  simpl in H. apply andb_prop in H as [Hx Hs].
  simpl. rewrite N.eqb_sym. destruct (N.eqb x c); [discriminate|].
  simpl. now rewrite (IH Hs).
Qed.

(** Without a space the whole line is kept; with one, what follows the
    first space. *)
Lemma afterFirstSpace_none (s : jsstring) :
  lacks 32%N s = true -> Step4AnalysisView.afterFirstSpace s = s.
Proof.
  intros H. unfold Step4AnalysisView.afterFirstSpace.
  assert (E : indexOf s (@cons N 32%N nil) = None)
    by exact (lacks_indexOf_None _ _ H).
  now rewrite E.
Qed.

Lemma afterFirstSpace_split (pre post : jsstring) :
  lacks 32%N pre = true ->
  Step4AnalysisView.afterFirstSpace (pre ++ 32%N :: post) = post.
Proof.
  intros H. unfold Step4AnalysisView.afterFirstSpace.
  assert (E : indexOf (pre ++ 32%N :: post) (@cons N 32%N nil)
              = Some (List.length pre)).
  { apply (indexOf_first pre [32%N] post).
    now apply starts_none_within_lacking. }
  rewrite E.
  rewrite skipn_app, (skipn_all2 pre) by lia.
  replace (List.length pre + 1 - List.length pre) with 1 by lia.
  reflexivity.
Qed.

Lemma digits_lack (c : cu) (digits : jsstring) :
  Step4AnalysisView.isDigit c = false ->
  forallb Step4AnalysisView.isDigit digits = true -> lacks c digits = true.
Proof.
  intros Hc. induction digits as [|d ds IH]; intros H; [reflexivity|].
  simpl in H. apply andb_prop in H as [Hd Hds]. simpl.
  rewrite (IH Hds), andb_true_r.
  destruct (N.eqb_spec d c) as [->|_]; [congruence|reflexivity].
Qed.

Lemma skipDigits_app (digits rest : jsstring) :
  forallb Step4AnalysisView.isDigit digits = true ->
  Step4AnalysisView.skipDigits (digits ++ 46%N :: rest) = 46%N :: rest.
Proof.
  induction digits as [|d ds IH]; intros H; [reflexivity|].
  simpl in H. apply andb_prop in H as [Hd Hds].
  simpl. now rewrite Hd, IH.
Qed.

(** A line of digits, a full stop and a white space is a numbered item
    whose text is what follows the line's first space. *)
Lemma numbered_line (i : nat) (digits rest : jsstring) (w : cu) :
  0 < List.length digits ->
  forallb Step4AnalysisView.isDigit digits = true ->
  isWhite w = true ->
  Step4AnalysisView.renderLine i (digits ++ 46%N :: w :: rest)
  = Step4AnalysisView.Numbered
      i (Step4AnalysisView.afterFirstSpace (digits ++ 46%N :: w :: rest)).
Proof.
  intros Hlen Hdigits Hw.
  destruct digits as [|d ds]; [simpl in Hlen; lia|].
  pose proof Hdigits as Hall.
  simpl in Hdigits. apply andb_prop in Hdigits as [Hd Hds].
  unfold Step4AnalysisView.renderLine.
  assert (H35 : N.eqb 35 d = false).
  { destruct (N.eqb_spec 35 d) as [<-|_]; [discriminate|reflexivity]. }
  assert (H42 : N.eqb 42 d = false).
  { destruct (N.eqb_spec 42 d) as [<-|_]; [discriminate|reflexivity]. }
  change (lit "# ") with [35; 32]%N. change (lit "## ") with [35; 35; 32]%N.
  change (lit "* ") with [42; 32]%N.
  cbn [app startsWith]. rewrite H35, H42. cbn [andb].
  unfold Step4AnalysisView.isNumbered.
  change (d :: ds ++ 46%N :: w :: rest)
    with ((d :: ds) ++ 46%N :: w :: rest).
  rewrite (skipDigits_app _ _ Hall), Hd, Hw. reflexivity.
Qed.

(** A line "N. text" renders as a numbered item with that text. *)
Theorem numbered_item_text (i : nat) (digits text : jsstring)
        (Hlen : 0 < List.length digits)
        (Hdigits : forallb Step4AnalysisView.isDigit digits = true) :
  Step4AnalysisView.renderLine i (digits ++ lit ". " ++ text)
  = Step4AnalysisView.Numbered i text.
Proof.
  refine (eq_trans (numbered_line i digits text 32%N Hlen Hdigits eq_refl) _).
  f_equal.
  assert (E : digits ++ 46%N :: 32%N :: text
              = (digits ++ [46%N]) ++ 32%N :: text)
    by now rewrite <- app_assoc.
  refine (eq_trans (f_equal Step4AnalysisView.afterFirstSpace E) _).
  apply afterFirstSpace_split.
  unfold lacks. rewrite forallb_app.
  change (forallb (fun x => negb (N.eqb x 32)) digits)
    with (lacks 32%N digits).
  now rewrite (digits_lack 32%N digits eq_refl Hdigits).
Qed.

Lemma numbered_item_text_witness :
  Step4AnalysisView.renderLine 4 (lit "12" ++ lit ". " ++ lit "Tone and voice")
  = Step4AnalysisView.Numbered 4 (lit "Tone and voice").
Proof.
  apply (numbered_item_text 4 (lit "12") (lit "Tone and voice")).
  - simpl. lia.
  - reflexivity.
Defined.

(** When the white space after the full stop is not a space (a tab, say),
    the item's text starts after the first space further on, so the words
    before that space are lost; without any space the numbering itself
    stays in the text. *)
Theorem numbered_item_other_whitespace
        (i : nat) (digits a b : jsstring) (w : cu)
        (Hlen : 0 < List.length digits)
        (Hdigits : forallb Step4AnalysisView.isDigit digits = true)
        (Hw : isWhite w = true)
        (Hnot_space : N.eqb w 32 = false)
        (Ha : lacks 32%N a = true) :
  Step4AnalysisView.renderLine i (digits ++ [46%N; w] ++ a ++ lit " " ++ b)
  = Step4AnalysisView.Numbered i b
  /\ Step4AnalysisView.renderLine i (digits ++ [46%N; w] ++ a)
     = Step4AnalysisView.Numbered i (digits ++ [46%N; w] ++ a).
Proof.
  assert (Hpre : lacks 32%N (digits ++ [46%N; w] ++ a) = true).
  { unfold lacks in *. rewrite !forallb_app, Ha.
    change (forallb (fun x => negb (N.eqb x 32)) digits)
      with (lacks 32%N digits).
    rewrite (digits_lack 32%N digits eq_refl Hdigits).
    simpl. now rewrite Hnot_space. }
  split.
  - refine (eq_trans (numbered_line i digits (a ++ lit " " ++ b) w
                                    Hlen Hdigits Hw) _).
    f_equal.
    assert (E : digits ++ 46%N :: w :: a ++ lit " " ++ b
                = (digits ++ [46%N; w] ++ a) ++ 32%N :: b)
      by (rewrite <- !app_assoc; reflexivity).
    refine (eq_trans (f_equal Step4AnalysisView.afterFirstSpace E) _).
    now apply afterFirstSpace_split.
  - refine (eq_trans (numbered_line i digits a w Hlen Hdigits Hw) _).
    f_equal. now apply (afterFirstSpace_none (digits ++ [46%N; w] ++ a)).
Qed.

Lemma numbered_item_other_whitespace_witness :
  Step4AnalysisView.renderLine
    0 (lit "1" ++ [46%N; 9%N] ++ lit "Tone" ++ lit " " ++ lit "and voice")
  = Step4AnalysisView.Numbered 0 (lit "and voice").
Proof.
  apply (numbered_item_other_whitespace
           0 (lit "1") (lit "Tone") (lit "and voice") 9%N);
    try reflexivity.
  simpl. lia.
Defined.

(** ** Step4Analysis.tsx: the download and the preview *)

Lemma replace_whitespace_runs_white_free (inRun : bool) (s : jsstring) :
  white_free (Step4AnalysisView.replace_whitespace_runs inRun s) = true.
Proof.
  revert inRun; induction s as [|c s IH]; intros inRun; [reflexivity|].
  simpl. destruct (isWhite c) eqn:E.
  - destruct inRun; [apply IH|]. simpl. apply IH.
  - simpl. rewrite E. apply IH.
Qed.

Lemma replace_whitespace_runs_fix (inRun : bool) (s : jsstring) :
  white_free s = true ->
  Step4AnalysisView.replace_whitespace_runs inRun s = s.
Proof.
  revert inRun; induction s as [|c s IH]; intros inRun H; [reflexivity|].
  simpl in H. apply andb_prop in H as [Hc Hs]. simpl.
  destruct (isWhite c); [discriminate|]. now rewrite IH.
Qed.

Lemma replace_whitespace_runs_app (inRun : bool) (a x : jsstring) :
  white_free a = true -> a <> [] ->
  Step4AnalysisView.replace_whitespace_runs inRun (a ++ x)
  = a ++ Step4AnalysisView.replace_whitespace_runs false x.
Proof.
  revert inRun; induction a as [|c a IH]; intros inRun H Hne;
    [contradiction|].
  simpl in H. apply andb_prop in H as [Hc Ha]. simpl.
  destruct (isWhite c); [discriminate|]. f_equal.
  destruct a as [|d a]; [reflexivity|]. now apply IH.
Qed.

Lemma replace_whitespace_runs_in_run (ws b : jsstring) :
  forallb isWhite ws = true -> white_free b = true ->
  Step4AnalysisView.replace_whitespace_runs true (ws ++ b) = b.
Proof.
  intros Hws Hb. induction ws as [|w ws IH].
  - now apply replace_whitespace_runs_fix.
  - simpl in Hws. apply andb_prop in Hws as [Hw Hrest].
    simpl. rewrite Hw. now apply IH.
Qed.

(** Two words separated by any run of white space come out joined by one
    hyphen; a keyword without white space is kept as it is; and doing the
    replacement twice changes nothing more. *)
Theorem whitespace_runs_to_hyphen (a ws b : jsstring)
        (Ha : white_free a = true)
        (Hws : forallb isWhite ws = true)
        (Hrun : 0 < List.length ws)
        (Hb : white_free b = true) :
  Step4AnalysisView.replace_whitespace_runs false (a ++ ws ++ b)
  = a ++ lit "-" ++ b
  /\ Step4AnalysisView.replace_whitespace_runs false a = a
  /\ forall keyword,
       Step4AnalysisView.replace_whitespace_runs
         false (Step4AnalysisView.replace_whitespace_runs false keyword)
       = Step4AnalysisView.replace_whitespace_runs false keyword.
Proof.
  split; [|split].
  - assert (Hrest : Step4AnalysisView.replace_whitespace_runs
                      false (ws ++ b) = lit "-" ++ b).
    { destruct ws as [|w ws]; [simpl in Hrun; lia|].
      simpl in Hws. apply andb_prop in Hws as [Hw Hrest].
      simpl. rewrite Hw. f_equal.
      now apply replace_whitespace_runs_in_run. }
    destruct a as [|c a]; [exact Hrest|].
    rewrite replace_whitespace_runs_app by (assumption || discriminate).
    now rewrite Hrest.
  - now apply replace_whitespace_runs_fix.
  - intros keyword. apply replace_whitespace_runs_fix.
    apply replace_whitespace_runs_white_free.
Qed.

Lemma whitespace_runs_to_hyphen_witness :
  Step4AnalysisView.replace_whitespace_runs
    false (lit "green" ++ [32%N; 9%N; 32%N] ++ lit "tea")
  = lit "green-tea".
Proof.
  apply (whitespace_runs_to_hyphen
           (lit "green") [32%N; 9%N; 32%N] (lit "tea")
           eq_refl eq_refl);
    [simpl; lia|reflexivity].
Defined.

(** Nothing is downloaded while no analysis result is stored.  Otherwise
    the file holds exactly the stored result, and its name, whatever the
    keyword, has no white space in it and ends in "-style-analysis.md". *)
Theorem handleDownload_file (keyword : jsstring)
        (snap : Step4Analysis.State) :
  match Step4AnalysisView.handleDownload keyword snap with
  | None => Step4Analysis.analysisResult snap = []
  | Some file =>
      Step4Analysis.analysisResult snap <> []
      /\ Step4AnalysisView.blobParts file
         = [Step4Analysis.analysisResult snap]
      /\ white_free (Step4AnalysisView.filename file) = true
      /\ exists stem,
           Step4AnalysisView.filename file
           = stem ++ lit "-style-analysis.md"
           /\ List.length stem <= List.length keyword
  end.
Proof.
  unfold Step4AnalysisView.handleDownload.
  destruct (Step4Analysis.analysisResult snap) as [|c result] eqn:E;
    [reflexivity|].
  cbn [truthy Step4AnalysisView.blobParts Step4AnalysisView.filename].
  repeat split; [discriminate| |].
  - unfold white_free. rewrite forallb_app.
    change (forallb (fun c0 => negb (isWhite c0))
                    (Step4AnalysisView.replace_whitespace_runs false keyword))
      with (white_free
              (Step4AnalysisView.replace_whitespace_runs false keyword)).
    now rewrite replace_whitespace_runs_white_free.
  - eexists. split; [reflexivity|].
    generalize false. induction keyword as [|k keyword IH]; intros inRun.
    + simpl. lia.
    + simpl. destruct (isWhite k); [destruct inRun|]; simpl;
        specialize (IH true) as IHt; specialize (IH false) as IHf; lia.
Qed.

(** The research preview is never longer than 503 code units; content of
    at most 500 is shown whole, and still followed by the dots. *)
Theorem researchPreview_bounded (researchContent : jsstring) :
  List.length (Step4AnalysisView.researchPreview researchContent) <= 503
  /\ (0 < List.length researchContent <= 500 ->
      Step4AnalysisView.researchPreview researchContent
      = researchContent ++ lit "...")
  /\ (500 < List.length researchContent ->
      exists rest,
        researchContent = firstn 500 researchContent ++ rest
        /\ rest <> []
        /\ Step4AnalysisView.researchPreview researchContent
           = firstn 500 researchContent ++ lit "...").
Proof.
  unfold Step4AnalysisView.researchPreview.
  split; [|split].
  - destruct researchContent as [|c s]; [simpl; lia|].
    cbn [truthy]. rewrite length_app, length_firstn.
    change (List.length (lit "...")) with 3. lia.
  - intros [Hpos Hle]. destruct researchContent as [|c s];
      [simpl in Hpos; lia|].
    cbn [truthy]. now rewrite firstn_all2.
  - intros Hlong.
    assert (Ht : truthy researchContent = true)
      by (destruct researchContent; [simpl in Hlong; lia|reflexivity]).
    rewrite Ht. exists (skipn 500 researchContent).
    split; [now rewrite firstn_skipn|]. split; [|reflexivity].
    intros E. apply (f_equal (@List.length _)) in E.
    rewrite length_skipn in E. cbn [List.length] in E. lia.
Qed.

Lemma researchPreview_bounded_witness :
  Step4AnalysisView.researchPreview (lit "# A") = lit "# A...".
Proof.
  apply (proj1 (proj2 (researchPreview_bounded (lit "# A")))).
  simpl. lia.
Defined.

(** ** The later Review step: processing, then continuing *)

(** "Continue to Next Step" hands on what the processing stored: the
    command as it was when "Process" was pressed with its first
    [[CONTENT]] resolved, the first result's keyword and the research
    text.  An edit of the command made after the processing is not passed
    on. *)
Theorem continue_passes_processed
        (htmlToMarkdown : option (jsstring -> jsstring))
        (results : list SearchResult)
        (snap : Step3ReviewMd.State) (edited : jsstring)
        (Hresults : 0 < List.length results) :
  let processed :=
    snd (fst (run (Step3ReviewMd.handleProcess htmlToMarkdown results snap)
                  snap)) in
  let later := Step3ReviewMd.setPrompt edited processed in
  snd (run (Step3ReviewMd.handleContinue later) later)
  = [OnNext (ReviewNext
               (replace (Step3ReviewMd.prompt snap) CONTENT_TOKEN
                        (Step3ReviewMd.format htmlToMarkdown results))
               (firstKeyword results)
               (Step3ReviewMd.format htmlToMarkdown results))]
  /\ Step3ReviewMd.isProcessing processed = false
  /\ Step3ReviewMd.showResults processed = true
  /\ Step3ReviewMd.prompt processed = Step3ReviewMd.prompt snap.
Proof.
  destruct results as [|r results]; [simpl in Hresults; lia|].
  cbv zeta. repeat split.
Qed.

Lemma continue_passes_processed_witness :
  snd (run (Step3ReviewMd.handleContinue
              (Step3ReviewMd.setPrompt
                 (lit "edited later")
                 (snd (fst (run (Step3ReviewMd.handleProcess
                                   None
                                   [mkSearchResult (lit "A") (lit "u1")
                                                   (lit "s1") None
                                                   (lit "tea")]
                                   (Step3ReviewMd.setPrompt
                                      (lit "Sum up: [CONTENT]")
                                      Step3ReviewMd.initialState))
                                (Step3ReviewMd.setPrompt
                                   (lit "Sum up: [CONTENT]")
                                   Step3ReviewMd.initialState))))))
           (Step3ReviewMd.setPrompt
              (lit "edited later")
              (snd (fst (run (Step3ReviewMd.handleProcess
                                None
                                [mkSearchResult (lit "A") (lit "u1")
                                                (lit "s1") None (lit "tea")]
                                (Step3ReviewMd.setPrompt
                                   (lit "Sum up: [CONTENT]")
                                   Step3ReviewMd.initialState))
                             (Step3ReviewMd.setPrompt
                                (lit "Sum up: [CONTENT]")
                                Step3ReviewMd.initialState))))))
  = [OnNext (ReviewNext
               (replace (lit "Sum up: [CONTENT]") CONTENT_TOKEN
                        (Step3ReviewMd.format
                           None
                           [mkSearchResult (lit "A") (lit "u1") (lit "s1")
                                           None (lit "tea")]))
               (lit "tea")
               (Step3ReviewMd.format
                  None
                  [mkSearchResult (lit "A") (lit "u1") (lit "s1") None
                                  (lit "tea")]))].
Proof.
  apply (continue_passes_processed
           None
           [mkSearchResult (lit "A") (lit "u1") (lit "s1") None (lit "tea")]
           (Step3ReviewMd.setPrompt (lit "Sum up: [CONTENT]")
                                    Step3ReviewMd.initialState)
           (lit "edited later")).
  simpl. lia.
Defined.

Lemma REVIEW_PROMPT_split :
  REVIEW_PROMPT
  = reviewHead ++ keyword_token ++ lit ": " ++ CONTENT_TOKEN ++ reviewTail.
Proof. reflexivity. Qed.

(** The effect on the keyword fills the first [[keyword]] of the
    template. *)
Lemma replace_review_keyword (keyword : jsstring) :
  dollar_free keyword = true ->
  replace Step3ReviewMd.DEFAULT_PROMPT keyword_token keyword
  = reviewHead ++ keyword ++ lit ": " ++ CONTENT_TOKEN ++ reviewTail.
Proof.
  intros Hfree. unfold Step3ReviewMd.DEFAULT_PROMPT.
  rewrite REVIEW_PROMPT_split.
  rewrite (replace_leftmost reviewHead keyword_token
                            (lit ": " ++ CONTENT_TOKEN ++ reviewTail)
                            keyword).
  - now rewrite GetSubstitution_dollar_free.
  - rewrite keyword_token_units. now apply starts_none_within_lacking.
Qed.

(** From the template to the processed command: with a first result whose
    keyword is not empty, has no [$] and does not contain [[CONTENT]], and
    research text without [$], the command stored by the processing is the
    template with the keyword and the formatted results in place of the
    two tokens. *)
Theorem processed_prompt_end_to_end
        (htmlToMarkdown : option (jsstring -> jsstring))
        (results : list SearchResult) (st : Step3ReviewMd.State)
        (Hresults : 0 < List.length results)
        (Hkeyword : truthy (firstKeyword results) = true)
        (Hfree : dollar_free (firstKeyword results) = true)
        (Hplain : indexOf (firstKeyword results) CONTENT_TOKEN = None)
        (Hcontent : dollar_free (Step3ReviewMd.format htmlToMarkdown results)
                    = true) :
  let mounted := Step3ReviewMd.keywordEffect (firstKeyword results) st in
  Step3ReviewMd.finalPrompt
    (snd (fst (run (Step3ReviewMd.handleProcess htmlToMarkdown results
                                                mounted)
                   mounted)))
  = reviewHead ++ firstKeyword results ++ lit ": "
      ++ Step3ReviewMd.format htmlToMarkdown results ++ reviewTail.
Proof.
  cbv zeta.
  set (keyword := firstKeyword results) in *.
  set (content := Step3ReviewMd.format htmlToMarkdown results) in *.
  assert (Hfinal :
            Step3ReviewMd.finalPrompt
              (snd (fst (run (Step3ReviewMd.handleProcess
                                htmlToMarkdown results
                                (Step3ReviewMd.keywordEffect keyword st))
                             (Step3ReviewMd.keywordEffect keyword st))))
            = replace (replace Step3ReviewMd.DEFAULT_PROMPT keyword_token
                               keyword)
                      CONTENT_TOKEN content).
  { unfold Step3ReviewMd.keywordEffect. rewrite Hkeyword.
    destruct results as [|r results]; [simpl in Hresults; lia|].
    reflexivity. }
  rewrite Hfinal, (replace_review_keyword _ Hfree).
  replace (reviewHead ++ keyword ++ lit ": " ++ CONTENT_TOKEN ++ reviewTail)
    with ((reviewHead ++ keyword ++ lit ": ") ++ CONTENT_TOKEN ++ reviewTail)
    by now rewrite <- !app_assoc.
  rewrite replace_leftmost.
  - rewrite (GetSubstitution_dollar_free _ _ _ _ Hcontent).
    now rewrite <- !app_assoc.
  - apply starts_none_within_app.
    + rewrite CONTENT_TOKEN_units. now apply starts_none_within_lacking.
    + apply starts_none_within_app.
      * apply (starts_none_within_absent
                 CONTENT_TOKEN keyword
                 (lit " " ++ CONTENT_TOKEN ++ reviewTail) 58%N);
          [exact Hplain|reflexivity].
      * rewrite CONTENT_TOKEN_units. now apply starts_none_within_lacking.
Qed.

Lemma processed_prompt_end_to_end_witness :
  Step3ReviewMd.finalPrompt
    (snd (fst (run (Step3ReviewMd.handleProcess
                      None
                      [mkSearchResult (lit "A") (lit "u1") (lit "s1") None
                                      (lit "tea")]
                      (Step3ReviewMd.keywordEffect
                         (lit "tea") Step3ReviewMd.initialState))
                   (Step3ReviewMd.keywordEffect
                      (lit "tea") Step3ReviewMd.initialState))))
  = reviewHead ++ lit "tea" ++ lit ": "
      ++ Step3ReviewMd.format
           None
           [mkSearchResult (lit "A") (lit "u1") (lit "s1") None (lit "tea")]
      ++ reviewTail.
Proof.
  apply (processed_prompt_end_to_end
           None
           [mkSearchResult (lit "A") (lit "u1") (lit "s1") None (lit "tea")]
           Step3ReviewMd.initialState);
    try reflexivity.
  simpl. lia.
Defined.

(** ** Step4Analysis.tsx: what "Continue to Next Step" always does *)

(** However the generation call settles and whatever the render saw,
    [handleProcess] completes normally, calls [onNext] exactly once, with
    the result its render saw, leaves the processing flag cleared and the
    command and the selected model untouched; when the render saw a stored
    result or a running generation, it starts no generation: the stored
    result and the generating flag stay as they are. *)
Theorem handleProcess_always_advances
        (call : Step4Analysis.Settled)
        (snap store : Step4Analysis.State) :
  let outcome := run (Step4Analysis.handleProcess call snap) store in
  let after := snd (fst outcome) in
  fst (fst outcome) = Normal tt
  /\ nextCalls (snd outcome)
     = [AnalysisNext (Step4Analysis.analysisResult snap)]
  /\ Step4Analysis.isProcessing after = false
  /\ Step4Analysis.prompt after = Step4Analysis.prompt store
  /\ Step4Analysis.selectedModel after = Step4Analysis.selectedModel store
  /\ (truthy (Step4Analysis.analysisResult snap)
      || Step4Analysis.isGenerating snap = true ->
      Step4Analysis.analysisResult after
      = Step4Analysis.analysisResult store
      /\ Step4Analysis.isGenerating after = Step4Analysis.isGenerating store
      /\ snd outcome
         = [OnNext (AnalysisNext (Step4Analysis.analysisResult snap))]).
Proof.
  cbv zeta. unfold Step4Analysis.handleProcess.
  destruct (truthy (Step4Analysis.analysisResult snap)) eqn:Et;
    destruct (Step4Analysis.isGenerating snap) eqn:Eg;
    destruct call; cbn; repeat split; try discriminate; reflexivity.
Qed.

Lemma handleProcess_always_advances_witness :
  snd (run (Step4Analysis.handleProcess
              (Step4Analysis.Rejected (lit "offline"))
              (Step4Analysis.setAnalysisResult
                 (lit "Short sentences.")
                 (Step4Analysis.initialState (lit "tea") (lit "R"))))
           (Step4Analysis.initialState (lit "tea") (lit "R")))
  = [OnNext (AnalysisNext (lit "Short sentences."))].
Proof.
  apply (handleProcess_always_advances
           (Step4Analysis.Rejected (lit "offline"))
           (Step4Analysis.setAnalysisResult
              (lit "Short sentences.")
              (Step4Analysis.initialState (lit "tea") (lit "R")))
           (Step4Analysis.initialState (lit "tea") (lit "R"))).
  reflexivity.
Defined.
